(** * Safe Link: rule-based URL scoring, tiering, reconciliation and ranking

    A shallow embedding of the scoring core of [src/App.tsx] and of the
    community view of [src/Community.tsx].

    Conventions of the embedding.
    - A JavaScript string is a [string]; one character stands for one code
      unit below 256.  [JS.toLowerCase] maps the ASCII letters;
      [JS.toLowerCase_latin1], which the search of the community view
      uses, also maps the capital letters above 127.
    - A JavaScript number that the code only ever builds from integer
      literals by [+], [-], [min] and [max] (score, safety, breakdown
      entries, reaction counters, tier ranks) is a [Z].  [confidence], the
      one quotient, is a [Q]: the exact quotient, of which the program
      holds the nearest binary64 value.  A number that may be [NaN] (a
      difference of parsed dates, or of tier ranks when a tier names an
      inherited property) is an [option Z], [None] standing for [NaN].
    - [undefined]/[null] in an optional field is [None].
    - The object [breakdown] is an association list in insertion order,
      which is the order [Object.values] enumerates.
    - Platform services the source calls but does not define ([new URL],
      [new Date(..).getTime()]) are section variables; identifiers and the
      clock reading are arguments; the reply of the remote service is an
      argument of the reconciler. *)

From Stdlib Require Import ZArith QArith Qminmax List String Ascii Bool Lia.
From Stdlib Require Import Permutation Sorted Setoid.
Import ListNotations.

Local Open Scope string_scope.
Local Open Scope Z_scope.

(** ** String primitives of the host language *)

Module JS.

(** [s.startsWith(p)] *)
Definition startsWith (s p : string) : bool := String.prefix p s.

(** [s.includes(sub)] *)
Fixpoint includes (s sub : string) : bool :=
  match s with
  | EmptyString => String.prefix sub EmptyString
  | String _ rest => String.prefix sub s || includes rest sub
  end.

Definition lower_ascii (c : ascii) : ascii :=
  let n := nat_of_ascii c in
  if (Nat.leb 65 n && Nat.leb n 90)%bool then ascii_of_nat (n + 32) else c.

(** [s.toLowerCase()] *)
Fixpoint toLowerCase (s : string) : string :=
  match s with
  | EmptyString => EmptyString
  | String c rest => String (lower_ascii c) (toLowerCase rest)
  end.

(** [s.length] *)
Definition length (s : string) : Z := Z.of_nat (String.length s).

(** Number of occurrences of the character [c]. *)
Fixpoint count_char (c : ascii) (s : string) : Z :=
  match s with
  | EmptyString => 0
  | String d rest => (if Ascii.eqb c d then 1 else 0) + count_char c rest
  end.

(** [s.split(c).length]: one more part than there are separators. *)
Definition split_length (c : ascii) (s : string) : Z := count_char c s + 1.

(** [s.split(c)[0]]: the text before the first [c]. *)
Fixpoint split_head (c : ascii) (s : string) : string :=
  match s with
  | EmptyString => EmptyString
  | String d rest => if Ascii.eqb c d then EmptyString else String d (split_head c rest)
  end.

(** [s.slice(s.indexOf(c))] when [c] occurs in [s]. *)
Fixpoint slice_from (c : ascii) (s : string) : string :=
  match s with
  | EmptyString => EmptyString
  | String d rest => if Ascii.eqb c d then s else slice_from c rest
  end.

(** [/l1|l2|...|ln/.test(s)] for literal alternatives. *)
Definition test (lits : list string) (s : string) : bool :=
  existsb (includes s) lits.

(** [/l1|l2|...|ln/i.test(s)]: the same, ignoring the case of letters. *)
Definition test_i (lits : list string) (s : string) : bool :=
  existsb (fun l => includes (toLowerCase s) (toLowerCase l)) lits.

(** [x || 0] on an optional number: [undefined] and [0] both give [0]. *)
Definition or0 (x : option Z) : Z := match x with Some v => v | None => 0 end.

(** [x ?? d] on an optional number. *)
Definition nullish (x : option Z) (d : Z) : Z := match x with Some v => v | None => d end.

(** *** More of the string primitives *)

(** [s.endsWith(suf)] *)
Definition endsWith (s suf : string) : bool :=
  Nat.leb (String.length suf) (String.length s)
  && String.eqb (String.substring (String.length s - String.length suf)
                                  (String.length suf) s) suf.

(** White space as [trim] sees it, among the code units below 256. *)
Definition is_space (c : ascii) : bool :=
  let n := nat_of_ascii c in
  (Nat.leb 9 n && Nat.leb n 13) || Nat.eqb n 32 || Nat.eqb n 160.

(** [!s.trim()]: nothing but white space (the empty text included). *)
Fixpoint blank (s : string) : bool :=
  match s with
  | EmptyString => true
  | String c rest => is_space c && blank rest
  end.

(** [s.trimStart()] *)
Fixpoint trimStart (s : string) : string :=
  match s with
  | EmptyString => EmptyString
  | String c rest => if is_space c then trimStart rest else s
  end.

(** [s.trimEnd()] *)
Fixpoint trimEnd (s : string) : string :=
  match s with
  | EmptyString => EmptyString
  | String c rest =>
      match trimEnd rest with
      | EmptyString => if is_space c then EmptyString else String c EmptyString
      | kept => String c kept
      end
  end.

(** [s.trim()] *)
Definition trim (s : string) : string := trimEnd (trimStart s).

(** [s.split(c)] *)
Fixpoint split (c : ascii) (s : string) : list string :=
  match s with
  | EmptyString => [EmptyString]
  | String d rest =>
      if Ascii.eqb c d then EmptyString :: split c rest
      else match split c rest with
           | part :: parts => String d part :: parts
           | [] => [String d EmptyString]
           end
  end.

(** [s.replace(/[...]/g, by)] for a class of single characters. *)
Fixpoint replace_class (cls : ascii -> bool) (by_ : ascii) (s : string) : string :=
  match s with
  | EmptyString => EmptyString
  | String c rest =>
      String (if cls c then by_ else c) (replace_class cls by_ rest)
  end.

(** [s.replace(/^p/, '')] for a literal [p]. *)
Definition strip_prefix (p s : string) : string :=
  if String.prefix p s
  then String.substring (String.length p) (String.length s - String.length p) s
  else s.

(** Every character of [s] satisfies [p]. *)
Fixpoint all_chars (p : ascii -> bool) (s : string) : bool :=
  match s with
  | EmptyString => true
  | String c rest => p c && all_chars p rest
  end.

(** The text after the first [c], if [c] occurs. *)
Fixpoint after_first (c : ascii) (s : string) : option string :=
  match s with
  | EmptyString => None
  | String d rest => if Ascii.eqb c d then Some rest else after_first c rest
  end.

Definition is_digit (c : ascii) : bool :=
  let n := nat_of_ascii c in Nat.leb 48 n && Nat.leb n 57.

Definition is_alpha (c : ascii) : bool :=
  let n := nat_of_ascii c in
  (Nat.leb 65 n && Nat.leb n 90) || (Nat.leb 97 n && Nat.leb n 122).

(** A line terminator, which [.] of a regular expression does not match. *)
Definition is_line_terminator (c : ascii) : bool :=
  let n := nat_of_ascii c in Nat.eqb n 10 || Nat.eqb n 13.

(** The small letter of a code unit below 256: besides A-Z, the capital
    letters 0xC0-0xD6 and 0xD8-0xDE of the Latin-1 range have theirs 32
    places up; 0xD7 is the multiplication sign, and 0xDF and 0xFF are
    small letters already. *)
Definition lower_latin1 (c : ascii) : ascii :=
  let n := nat_of_ascii c in
  if (Nat.leb 65 n && Nat.leb n 90)
     || (Nat.leb 192 n && Nat.leb n 214)
     || (Nat.leb 216 n && Nat.leb n 222)
  then ascii_of_nat (n + 32) else c.

(** [s.toLowerCase()] on text that may hold code units above 127. *)
Fixpoint toLowerCase_latin1 (s : string) : string :=
  match s with
  | EmptyString => EmptyString
  | String c rest => String (lower_latin1 c) (toLowerCase_latin1 rest)
  end.

(** A code unit of the ASCII range. *)
Definition is_ascii (c : ascii) : bool := Nat.ltb (nat_of_ascii c) 128.

End JS.

(** ** Data model ([src/App.tsx], lines 16-52) *)

Inductive Tier := HighRisk | BeCareful | Safe.

Definition tierName (t : Tier) : string :=
  match t with
  | HighRisk => "High Risk"
  | BeCareful => "Be Careful"
  | Safe => "Safe"
  end.

Inductive Reaction := like | dislike.

Definition Reaction_eqb (a b : Reaction) : bool :=
  match a, b with
  | like, like | dislike, dislike => true
  | _, _ => false
  end.

(** [userReaction === r] *)
Definition reaction_is (u : option Reaction) (r : Reaction) : bool :=
  match u with Some x => Reaction_eqb x r | None => false end.

(** One sub-check of the remote reply: [{checked?, status, details}]. *)
Record SubCheck := mkSubCheck {
  checked : option bool;
  status : option string;
  details : option string
}.

Definition Checks := list (string * SubCheck).

Record ApiCheck := mkApiCheck {
  done : bool;
  note : option string;
  checks : Checks;
  failed : bool
}.

Definition Breakdown := list (string * Z).

Record ScanResult := mkScanResult {
  id : string;
  url : string;
  safety : Z;
  tier : Tier;
  color : string;
  confidence : Q;
  reasons : list string;
  breakdown : Breakdown;
  timestamp : string;
  likes : option Z;
  dislikes : option Z;
  userReaction : option Reaction;
  apiCheck : option ApiCheck
}.

(** Assignment [o.k = v] on an object kept in insertion order. *)
Fixpoint assign (o : Breakdown) (k : string) (v : Z) : Breakdown :=
  match o with
  | [] => [(k, v)]
  | (k', v') :: rest =>
      if String.eqb k k' then (k, v) :: rest else (k', v') :: assign rest k v
  end.

(** Property read [o.k]. *)
Fixpoint lookup (o : Breakdown) (k : string) : option Z :=
  match o with
  | [] => None
  | (k', v) :: rest => if String.eqb k k' then Some v else lookup rest k
  end.

(** [o.k === v] *)
Definition field_is (o : Breakdown) (k : string) (v : Z) : bool :=
  match lookup o k with Some x => Z.eqb x v | None => false end.

Definition Object_keys (o : Breakdown) : list string := map fst o.
Definition Object_values (o : Breakdown) : list Z := map snd o.

(** ** Helpers ([src/App.tsx], lines 123-177) *)

(** [clamp] at the integer instances of its argument. *)
Definition clamp (v a b : Z) : Z := Z.max a (Z.min b v).

(** [clamp] at a real argument, with the source's default bounds
    [a = 0] and [b = 1e9] made explicit. *)
Definition clamp_default_hi : Q := inject_Z 1000000000.
Definition clampQ (v : Q) : Q := Qmax 0 (Qmin clamp_default_hi v).

(** [Math.round] on a number that is already an integer. *)
Definition Math_round (v : Z) : Z := v.

Definition shortener_hosts : list string :=
  ["bit.ly"; "tinyurl"; "goo.gl"; "t.co"; "ow.ly"; "buff.ly"; "rb.gy"; "short.ly"; "is.gd"].

Definition isProbablyShortener (host : string) : bool :=
  JS.test_i shortener_hosts host.

Definition urgent_keywords : list string :=
  ["verify"; "reset"; "update"; "confirm"; "secure"; "account"; "login";
   "unauthorized"; "suspend"; "password"; "malware"; "scam"; "phish";
   "download"; "virus"].

Definition hasUrgentKeywords (text : string) : bool :=
  JS.test_i urgent_keywords text.

Definition known_safe_domains : list string :=
  ["google.com"; "apple.com"; "microsoft.com"; "amazon.com"].

Definition mockDomainAgeDays (host : string) : Z :=
  if JS.test_i known_safe_domains host then 365 * 10
  else if JS.includes host "new-" || JS.includes host "recent" || JS.includes host "young" then 12
  else if JS.includes host "old-" || JS.includes host "established" then 365 * 3
  else Z.min (365 * 3) (Z.max 10 (JS.length host * 20)).

Definition mockHasValidSsl (url : string) : bool :=
  if JS.test ["selfsigned"; "invalid-cert"; "testcert"] url then false
  else negb (JS.startsWith url "http://").

Definition mockIsBlacklisted (host : string) : bool :=
  JS.test_i ["badsite"; "phish"; "malicious"; "malware-download"] host.

Definition isShortAndClean (host : string) : bool :=
  let parts := JS.split_length "." host in
  if JS.test_i known_safe_domains host then true
  else (parts <=? 3) && (JS.length host <? 25) && negb (JS.includes host "-").

(** What [new URL(s)] exposes of a successfully parsed address. *)
Record Location := mkLocation {
  hostname : string;
  pathname : string;
  search : string
}.

Record HostPath := mkHostPath { host : string; path : string }.

(** The remote reputation service's reply, as far as the source reads it. *)
Record ExtResponse := mkExtResponse {
  finalVerdict : option string;
  summary : option string;
  ext_checks : option Checks
}.

(** What [fetch] can do: reject, or resolve with a status and a body
    ([None]: the body is [null] or is not JSON). *)
Inductive FetchOutcome :=
| FetchRejected
| FetchResolved (ok : bool) (body : option ExtResponse).

(** [realExternalLookup] ([src/App.tsx], lines 299-316): [null] on a
    rejected fetch, on a non-success status and on an unreadable body. *)
Definition realExternalLookup (o : FetchOutcome) : option ExtResponse :=
  match o with
  | FetchRejected => None
  | FetchResolved false _ => None
  | FetchResolved true body => body
  end.

Definition subcheck_failed (c : SubCheck) : bool :=
  match checked c with Some false => true | _ => false end
  || match status c with Some s => String.eqb s "error" | None => false end.

Definition didAllApisFail (cs : option Checks) : bool :=
  match cs with
  | None => false
  | Some l => forallb (fun kv => subcheck_failed (snd kv)) l
  end.

(** Tier and colour as [scoreUrl] computes them (lines 244-245). *)
Definition tierOf (safety : Z) : Tier :=
  if safety <=? 3 then HighRisk else if safety <=? 6 then BeCareful else Safe.

Definition colorOf (safety : Z) : string :=
  if safety <=? 3 then "#ef4444" else if safety <=? 6 then "#f59e0b" else "#10b981".

(** Tier and colour as [runExternalCheck] computes them (lines 459-467). *)
Definition finalTierOf (finalSafety : Z) : Tier :=
  if finalSafety <=? 3 then HighRisk
  else if finalSafety <=? 6 then BeCareful
  else Safe.

Definition finalColorOf (finalSafety : Z) : string :=
  if finalSafety <=? 3 then "#ef4444"
  else if finalSafety <=? 6 then "#f59e0b"
  else "#10b981".

(** The score label class of the result card (line 707). *)
Definition scoreLabelOf (safety : Z) : string :=
  if safety <=? 3 then "high" else if safety <=? 6 then "medium" else "low".

(** The running pair [(score, breakdown)] of [scoreUrl]. *)
Definition Tally := (Z * Breakdown)%type.

(** [breakdown.k = v; score += v] (also [score -= 1] with [v = -1]). *)
Definition award (k : string) (v : Z) (t : Tally) : Tally :=
  (fst t + v, assign (snd t) k v).

(** [breakdown.k = v] with the score left alone. *)
Definition record_only (k : string) (v : Z) (t : Tally) : Tally :=
  (fst t, assign (snd t) k v).

(** [if (c) reasons.push(msg)] *)
Definition push_if (c : bool) (msg : string) (reasons : list string) : list string :=
  if c then (reasons ++ [msg])%list else reasons.

Definition caution_blacklist := "Domain is flagged on threat lists.".
Definition caution_keywords := "URL contains suspicious, urgent keywords.".
Definition caution_redirects := "Excessive redirects or shortener detected.".
Definition caution_https := "Missing HTTPS for a secure connection.".
Definition caution_ssl := "Missing or invalid SSL Certificate.".
Definition caution_age := "Domain is less than 6 months old.".
Definition fallback_reason :=
  "Analysis complete. No specific flags found, but score is 0. Check for valid domain format.".

(** Lines 251-256. *)
Definition push_cautions (bd : Breakdown) (reasons : list string) : list string :=
  push_if (field_is bd "domainAge" 0) caution_age
  (push_if (field_is bd "ssl" 0) caution_ssl
  (push_if (field_is bd "https" 0) caution_https
  (push_if (field_is bd "redirects" (-1)) caution_redirects
  (push_if (field_is bd "suspiciousKeywords" (-1)) caution_keywords
  (push_if (field_is bd "blacklisted" (-2)) caution_blacklist reasons))))).

(** Lines 260-266. *)
Definition push_confirmations (bd : Breakdown) (reasons : list string) : list string :=
  push_if (field_is bd "redirects" 1) "✔ No excessive redirects detected."
  (push_if (field_is bd "domainAge" 1) "✔ Domain is established (over 6 months old)."
  (push_if (field_is bd "suspiciousKeywords" 1) "✔ No suspicious keywords found."
  (push_if (field_is bd "cleanDomain" 1) "✔ Domain name is short and clean."
  (push_if (field_is bd "blacklisted" 2) "✔ Domain is not flagged on threat lists."
  (push_if (field_is bd "ssl" 2) "✔ Valid SSL Certificate detected."
  (push_if (field_is bd "https" 2) "✔ Uses HTTPS for a secure connection." reasons)))))).

Definition is_nil {A} (l : list A) : bool :=
  match l with [] => true | _ => false end.

(** [Object.values(breakdown).filter(v => v > 0).reduce((a, b) => a + b, 0)] *)
Definition positiveScoreOf (bd : Breakdown) : Z :=
  fold_left Z.add (filter (fun v => 0 <? v) (Object_values bd)) 0.

(** JavaScript subtraction on numbers that may be [NaN]. *)
Definition num_sub (x y : option Z) : option Z :=
  match x, y with
  | Some a, Some b => Some (a - b)
  | _, _ => None
  end.

(** How [Array.prototype.sort] reads a comparator's result: positive
    means "goes after"; [NaN] counts as [+0]. *)
Definition goes_after (v : option Z) : bool :=
  match v with Some d => 0 <? d | None => false end.

(** [Array.prototype.sort(cmp)] is a stable sort; it is modelled as the
    stable insertion sort. *)
Fixpoint sort_insert {A} (cmp : A -> A -> option Z) (x : A) (l : list A) : list A :=
  match l with
  | [] => [x]
  | y :: rest => if goes_after (cmp x y) then y :: sort_insert cmp x rest else x :: l
  end.

Definition Array_sort {A} (cmp : A -> A -> option Z) (l : list A) : list A :=
  fold_right (sort_insert cmp) [] l.

(** The view state of [App] that the reconciler reads and writes. *)
Record AppState := mkAppState {
  scan : option ScanResult;
  history : list ScanResult;
  loading : bool;
  error : option string
}.

(** The value kept under [links/{key}], and the three fields of an entry
    that the reaction buttons read and write. *)
Record Reactions := mkReactions {
  r_likes : option Z;
  r_dislikes : option Z;
  r_userReaction : option Reaction
}.

Definition reactions_of (s : ScanResult) : Reactions :=
  mkReactions (likes s) (dislikes s) (userReaction s).

(** [{ ...s, likes, dislikes, userReaction }] *)
Definition with_reactions (s : ScanResult) (r : Reactions) : ScanResult :=
  mkScanResult (id s) (url s) (safety s) (tier s) (color s) (confidence s)
    (reasons s) (breakdown s) (timestamp s)
    (r_likes r) (r_dislikes r) (r_userReaction r) (apiCheck s).

(** [ext.finalVerdict === v] *)
Definition verdict_is (verdict : option string) (v : string) : bool :=
  match verdict with Some x => String.eqb x v | None => false end.

(** Lines 449-457 of [runExternalCheck]: start from the current safety
    and lower it by the verdict. *)
Definition adjustSafety (safety : Z) (ext : ExtResponse) : Z :=
  let finalSafety := safety in
  if verdict_is (finalVerdict ext) "malicious" then Z.min finalSafety 1
  else if verdict_is (finalVerdict ext) "suspicious" then Z.min finalSafety 4
  else finalSafety.

Definition api_failed_note := "External API scan failed".

(** Lines 447-480 of [runExternalCheck]: the record [updatedScan]. *)
Definition updatedScan (scan : ScanResult) (ext : ExtResponse) : ScanResult :=
  let allFailed := didAllApisFail (ext_checks ext) in
  let finalSafety := adjustSafety (safety scan) ext in
  let finalTier := finalTierOf finalSafety in
  let finalColor := finalColorOf finalSafety in
  mkScanResult (id scan) (url scan) finalSafety finalTier finalColor
    (confidence scan) (reasons scan) (breakdown scan) (timestamp scan)
    (likes scan) (dislikes scan) (userReaction scan)
    (Some (mkApiCheck true
             (if allFailed then Some api_failed_note else summary ext)
             (match ext_checks ext with Some c => c | None => [] end)
             allFailed)).

(** [tierOrder] of [sortScans] in [src/App.tsx]. *)
Definition tierOrder (t : Tier) : Z :=
  match t with
  | HighRisk => 0
  | BeCareful => 1
  | Safe => 2
  end.

(** [!!scan.apiCheck?.done] *)
Definition apiDone (s : ScanResult) : bool :=
  match apiCheck s with Some a => done a | None => false end.

(** What the result card shows in its [api-group] (lines 728-739): a
    note for a high-risk result, otherwise the button, possibly disabled. *)
Inductive ApiControl :=
| ApiNote
| ApiButton (disabled : bool).

Section App.

(** [new URL(s)]: [None] when the constructor throws. *)
Variable URL : string -> option Location.

(** [new Date(s).getTime()]: [None] when the date is invalid ([NaN]). *)
Variable Date_getTime : string -> option Z.

Definition parseHost (raw : string) : HostPath :=
  let normalized := if JS.startsWith raw "http" then raw else "https://" ++ raw in
  match URL normalized with
  | Some u => mkHostPath (hostname u) (pathname u ++ search u)
  | None =>
      mkHostPath (JS.split_head "/" raw)
                 (if JS.includes raw "/" then JS.slice_from "/" raw else EmptyString)
  end.

Definition mockHasExcessiveRedirects (url : string) : bool :=
  JS.test_i ["redirect"; "redir"; "continue"; "next="; "returnurl"] url
  || isProbablyShortener (host (parseHost url)).

(** [scoreUrl] (lines 181-290).  [newId] is the value of
    [crypto.randomUUID()] and [now] that of [new Date().toLocaleString()]. *)
Definition scoreUrl (raw newId now : string) : ScanResult :=
  let host := host (parseHost raw) in
  let lowerHost := JS.toLowerCase host in
  let lowerUrl := JS.toLowerCase raw in
  let isKnownSafeDomain := JS.test_i known_safe_domains lowerHost in
  let t : Tally := (0, []) in
  let isHttps := JS.startsWith raw "https://" in
  let t := (if isHttps || (isKnownSafeDomain && negb (JS.startsWith raw "http://"))
            then award "https" 2 else record_only "https" 0) t in
  let hasValidSsl := mockHasValidSsl raw in
  let t := (if hasValidSsl then award "ssl" 2 else record_only "ssl" 0) t in
  let isBlacklisted := mockIsBlacklisted host in
  let t := (if negb isBlacklisted then award "blacklisted" 2
            else award "blacklisted" (-2)) t in
  let isClean := isShortAndClean host in
  let t := (if isClean then award "cleanDomain" 1 else record_only "cleanDomain" 0) t in
  let hasSuspicious := hasUrgentKeywords lowerHost || hasUrgentKeywords lowerUrl in
  let t := (if negb hasSuspicious then award "suspiciousKeywords" 1
            else award "suspiciousKeywords" (-1)) t in
  let ageDays := mockDomainAgeDays host in
  let isEstablished := 180 <? ageDays in
  let t := (if isEstablished then award "domainAge" 1 else record_only "domainAge" 0) t in
  let hasRedirects := mockHasExcessiveRedirects raw in
  let t := (if negb hasRedirects then award "redirects" 1
            else award "redirects" (-1)) t in
  let breakdown := snd t in
  let score := clamp (Math_round (fst t)) 0 10 in
  let safety := score in
  let tier := tierOf safety in
  let color := colorOf safety in
  let positiveScore := positiveScoreOf breakdown in
  let confidence := clampQ (inject_Z positiveScore / inject_Z 10)%Q in
  let reasons : list string := [] in
  let reasons := if safety <=? 6 then push_cautions breakdown reasons else reasons in
  let reasons := if is_nil reasons || (6 <? safety)
                 then push_confirmations breakdown reasons else reasons in
  let reasons := if is_nil reasons then (reasons ++ [fallback_reason])%list else reasons in
  mkScanResult newId
    (if JS.startsWith raw "http" then raw else "https://" ++ raw)
    safety tier color confidence reasons breakdown now
    (Some 0) (Some 0) None None.

(** [sortScans] of [src/App.tsx] (lines 54-78). *)
Definition sortScans (a b : ScanResult) : option Z :=
  if negb (tierOrder (tier a) =? tierOrder (tier b)) then
    Some (tierOrder (tier a) - tierOrder (tier b))
  else
    let aDislikes := JS.nullish (dislikes a) 0 in
    let bDislikes := JS.nullish (dislikes b) 0 in
    if negb (aDislikes =? bDislikes) then Some (bDislikes - aDislikes)
    else
      let dateA := Date_getTime (timestamp a) in
      let dateB := Date_getTime (timestamp b) in
      num_sub dateB dateA.

(** [runExternalCheck] (lines 432-499), given what [fetch] did.  The
    [finally] clause clears [loading] on every path past the first
    guard. *)
Definition runExternalCheck (st : AppState) (o : FetchOutcome) : AppState :=
  match scan st with
  | None => st
  | Some sc =>
      match realExternalLookup o with
      | None => mkAppState (Some sc) (history st) false (Some api_failed_note)
      | Some ext =>
          let updated := updatedScan sc ext in
          mkAppState (Some updated)
            (firstn 5
               (Array_sort sortScans
                  (map (fun s => if String.eqb (id s) (id sc) then updated else s)
                       (history st))))
            false None
      end
  end.

Definition apiControl (st : AppState) (sc : ScanResult) : ApiControl :=
  if safety sc <=? 3 then ApiNote
  else ApiButton (loading st || apiDone sc).

(** A click where the "Run API check" button would be: a disabled or
    absent button runs nothing. *)
Definition clickApiCheck (st : AppState) (o : FetchOutcome) : AppState :=
  match scan st with
  | None => st
  | Some sc =>
      match apiControl st sc with
      | ApiButton false => runExternalCheck st o
      | _ => st
      end
  end.

End App.

(** A sample of the platform's address parser, used as a concrete
    instance.  It answers only for plain addresses [http(s)://host/path]:
    a host of lower-case letters, digits, dots and hyphens whose last
    label starts with a letter and which has no punycode label, and a path
    of letters, digits, [_], [~], [-], [.] and [/] without dot segments;
    on these it agrees with [new URL].  Everything else it rejects. *)
Definition host_char (c : ascii) : bool :=
  let n := nat_of_ascii c in
  (Nat.leb 97 n && Nat.leb n 122) || (Nat.leb 48 n && Nat.leb n 57)
  || Nat.eqb n 45 || Nat.eqb n 46.

Definition path_char (c : ascii) : bool :=
  let n := nat_of_ascii c in
  host_char c || (Nat.leb 65 n && Nat.leb n 90)
  || Nat.eqb n 95 || Nat.eqb n 126 || Nat.eqb n 47.

Definition is_letter (c : ascii) : bool :=
  let n := nat_of_ascii c in Nat.leb 97 n && Nat.leb n 122.

(** The text after the last dot (the whole text when there is none). *)
Fixpoint last_label (s : string) : string :=
  match s with
  | EmptyString => EmptyString
  | String c rest =>
      if JS.includes rest "." then last_label rest
      else if Ascii.eqb c "." then rest else s
  end.

Definition plain_host (h : string) : bool :=
  forallb host_char (list_ascii_of_string h)
  && match last_label h with
     | String c _ => is_letter c
     | EmptyString => false
     end
  && negb (JS.includes h "xn--").

Definition plain_path (p : string) : bool :=
  forallb path_char (list_ascii_of_string p) && negb (JS.includes p "/.").

Definition sampleURL (s : string) : option Location :=
  let after :=
    if JS.startsWith s "https://" then Some (String.substring 8 (String.length s - 8) s)
    else if JS.startsWith s "http://" then Some (String.substring 7 (String.length s - 7) s)
    else None in
  match after with
  | None => None
  | Some rest =>
      let h := JS.split_head "/" rest in
      let p := if JS.includes rest "/" then JS.slice_from "/" rest else "/" in
      if plain_host h && plain_path p then Some (mkLocation h p EmptyString) else None
  end.

(** A sample of the platform's date parser: three readings of
    [toLocaleString()] in the en-US locale at UTC, every other text being
    an invalid date. *)
Definition sampleDate (s : string) : option Z :=
  if String.eqb s "1/1/2024, 12:00:00 AM" then Some 1704067200000
  else if String.eqb s "1/2/2024, 12:00:00 AM" then Some 1704153600000
  else if String.eqb s "1/3/2024, 12:00:00 AM" then Some 1704240000000
  else None.

(** ** Reactions

    The like and dislike buttons of the main view ([src/App.tsx], lines
    862-933).  Each reads [userReaction], [likes] and [dislikes] of the
    entry [h] it is drawn for and writes the three new values both to
    [links/{key}] and to the entry. *)

Definition App_like (h : Reactions) : Reactions :=
  let newReaction := r_userReaction h in
  let likes := JS.or0 (r_likes h) in
  let dislikes := JS.or0 (r_dislikes h) in
  if reaction_is newReaction like then
    mkReactions (Some (likes - 1)) (Some dislikes) None
  else
    let dislikes := if reaction_is newReaction dislike then dislikes - 1 else dislikes in
    mkReactions (Some (likes + 1)) (Some dislikes) (Some like).

Definition App_dislike (h : Reactions) : Reactions :=
  let newReaction := r_userReaction h in
  let likes := JS.or0 (r_likes h) in
  let dislikes := JS.or0 (r_dislikes h) in
  if reaction_is newReaction dislike then
    mkReactions (Some likes) (Some (dislikes - 1)) None
  else
    let likes := if reaction_is newReaction like then likes - 1 else likes in
    mkReactions (Some likes) (Some (dislikes + 1)) (Some dislike).

(** What a reaction button of the main view displays: [h.likes || 0]. *)
Definition App_shown (c : option Z) : Z := JS.or0 c.

(** The value [saveScanToFirebase] puts under [links/{key}]
    (lines 403-409), from the three fields of [scanResult]. *)
Definition savedLinks (scanResult : Reactions) : Reactions :=
  mkReactions (Some (JS.nullish (r_likes scanResult) 0))
              (Some (JS.nullish (r_dislikes scanResult) 0))
              (r_userReaction scanResult).

Section AppReactions.

Variable Date_getTime : string -> option Z.

(** The state update of a reaction button (lines 881-887, 926-932):
    the entry with the id of [h] gets the new values, and the list is
    sorted again. *)
Definition setReactions (st : AppState) (h : ScanResult) (r : Reactions) : AppState :=
  mkAppState (scan st)
    (Array_sort (sortScans Date_getTime)
       (map (fun s => if String.eqb (id s) (id h) then with_reactions s r else s)
            (history st)))
    (loading st) (error st).

Definition likeClick (st : AppState) (h : ScanResult) : AppState :=
  setReactions st h (App_like (reactions_of h)).

Definition dislikeClick (st : AppState) (h : ScanResult) : AppState :=
  setReactions st h (App_dislike (reactions_of h)).

End AppReactions.

(** [reactions[key] || {}] *)
Definition or_empty (reaction : option Reactions) : Reactions :=
  match reaction with Some r => r | None => mkReactions None None None end.

(** The merge of [loadHistory] (lines 528-535). *)
Definition loadMerge (reaction : option Reactions) : Reactions :=
  let reaction := or_empty reaction in
  mkReactions (Some (JS.nullish (r_likes reaction) 0))
              (Some (JS.nullish (r_dislikes reaction) 0))
              (r_userReaction reaction).

(** The merge of the realtime listener (lines 558-572); [localScan] is
    the entry found in the listener's own [history], if any. *)
Definition mergeEntry (reaction : option Reactions) (scan : Reactions)
    (localScan : option Reactions) : Reactions :=
  let reaction := or_empty reaction in
  let localScan := or_empty localScan in
  mkReactions
    (Some (match r_likes reaction with
           | Some v => v
           | None => JS.nullish (r_likes scan) 0
           end))
    (Some (match r_dislikes reaction with
           | Some v => v
           | None => JS.nullish (r_dislikes scan) 0
           end))
    (match r_userReaction reaction with
     | Some u => Some u
     | None => r_userReaction localScan
     end).

(** [src/Community.tsx] *)
Module Community.

Record ScanResult := mkScanResult {
  id : string;
  url : string;
  safety : Z;
  tier : string;
  color : string;
  timestamp : string;
  likes : option Z;
  dislikes : option Z;
  userReaction : option Reaction
}.

(** What reading a property of an object literal finds: a number the
    literal defines, a value inherited from [Object.prototype] (a
    function, or the prototype itself), or nothing. *)
Inductive Lookup :=
| Own (v : Z)
| Inherited
| Absent.

(** The string-keyed properties of [Object.prototype]. *)
Definition object_prototype_keys : list string :=
  ["constructor"; "__defineGetter__"; "__defineSetter__"; "hasOwnProperty";
   "__lookupGetter__"; "__lookupSetter__"; "isPrototypeOf"; "propertyIsEnumerable";
   "toString"; "valueOf"; "__proto__"; "toLocaleString"].

(** [tierPriority[t]] *)
Definition tierPriority (t : string) : Lookup :=
  if String.eqb t "High Risk" then Own 3
  else if String.eqb t "Be Careful" then Own 2
  else if String.eqb t "Safe" then Own 1
  else if existsb (String.eqb t) object_prototype_keys then Inherited
  else Absent.

(** [(tierPriority[t] || 0)] as an operand of a subtraction: a number
    the literal defines; [0] in place of [undefined]; an inherited value
    is truthy, stays, and converts to [NaN]. *)
Definition priority_or_0 (found : Lookup) : option Z :=
  match found with
  | Own v => Some v
  | Inherited => None
  | Absent => Some 0
  end.

(** [v !== 0] on a number that may be [NaN]. *)
Definition is_not_zero (v : option Z) : bool :=
  match v with
  | Some d => negb (d =? 0)
  | None => true
  end.

Section Ranking.

Variable Date_getTime : string -> option Z.

(** [sortScans] (lines 34-55). *)
Definition sortScans (a b : ScanResult) : option Z :=
  let tierDiff := num_sub (priority_or_0 (tierPriority (tier b)))
                          (priority_or_0 (tierPriority (tier a))) in
  if is_not_zero tierDiff then tierDiff
  else
    let dislikesDiff := JS.nullish (dislikes b) 0 - JS.nullish (dislikes a) 0 in
    if negb (dislikesDiff =? 0) then Some dislikesDiff
    else
      let likesDiff := JS.nullish (likes b) 0 - JS.nullish (likes a) 0 in
      if negb (likesDiff =? 0) then Some likesDiff
      else num_sub (Date_getTime (timestamp b)) (Date_getTime (timestamp a)).

End Ranking.

(** [handleLike] (lines 122-141): the three values it writes. *)
Definition handleLike (scan : Reactions) : Reactions :=
  let newReaction := if reaction_is (r_userReaction scan) like then None else Some like in
  let updatedLikes :=
    if reaction_is newReaction like then JS.nullish (r_likes scan) 0 + 1
    else JS.nullish (r_likes scan) 1 - 1 in
  let updatedDislikes :=
    if reaction_is newReaction like && reaction_is (r_userReaction scan) dislike
    then JS.nullish (r_dislikes scan) 1 - 1
    else JS.nullish (r_dislikes scan) 0 in
  mkReactions (Some updatedLikes) (Some updatedDislikes) newReaction.

(** [handleDislike] (lines 144-163). *)
Definition handleDislike (scan : Reactions) : Reactions :=
  let newReaction := if reaction_is (r_userReaction scan) dislike then None else Some dislike in
  let updatedDislikes :=
    if reaction_is newReaction dislike then JS.nullish (r_dislikes scan) 0 + 1
    else JS.nullish (r_dislikes scan) 1 - 1 in
  let updatedLikes :=
    if reaction_is newReaction dislike && reaction_is (r_userReaction scan) like
    then JS.nullish (r_likes scan) 1 - 1
    else JS.nullish (r_likes scan) 0 in
  mkReactions (Some updatedLikes) (Some updatedDislikes) newReaction.

(** What the community view displays: [scan.likes ?? 0]. *)
Definition shown (c : option Z) : Z := JS.nullish c 0.

End Community.

(** The record under [history/{id}] as the community view reads it. *)
Definition stored (s : ScanResult) : Community.ScanResult :=
  Community.mkScanResult (id s) (url s) (safety s) (tierName (tier s)) (color s)
    (timestamp s) (likes s) (dislikes s) (userReaction s).

(** ** The reaction counters of one scanned address, across both views

    [links] is the value under [links/{key}] ([None] until
    [saveScanToFirebase] has written it), [hist] the three fields of the
    record under [history/{id}], [appView] and [communityView] the fields
    of the entry each view holds in its state.

    A like or dislike button of the main view writes its three values
    with one [set] and then updates its entry.  [handleLike] and
    [handleDislike] of the community view await three separate writes,
    one field each, before they update the entry; between two of them
    the listener of the community view can deliver the record as it then
    stands, and another click can start another handler.  [pending]
    holds, for every handler started, what it has still to do. *)

(** One thing a handler of the community view does after it has computed
    its three values. *)
Inductive Effect :=
| WriteLikes (v : option Z)               (* set(history/{id}/likes, v) *)
| WriteDislikes (v : option Z)            (* set(history/{id}/dislikes, v) *)
| WriteReaction (u : option Reaction)     (* set(history/{id}/userReaction, u) *)
| SetEntry (r : Reactions).               (* setHistory: the entry gets the three values *)

(** [handleLike] (lines 122-141), as the sequence it runs through. *)
Definition handleLike_effects (scan : Reactions) : list Effect :=
  let r := Community.handleLike scan in
  [WriteLikes (r_likes r); WriteDislikes (r_dislikes r);
   WriteReaction (r_userReaction r); SetEntry r].

(** [handleDislike] (lines 144-163): dislikes are written first. *)
Definition handleDislike_effects (scan : Reactions) : list Effect :=
  let r := Community.handleDislike scan in
  [WriteDislikes (r_dislikes r); WriteLikes (r_likes r);
   WriteReaction (r_userReaction r); SetEntry r].

Record Shared := mkShared {
  links : option Reactions;
  hist : Reactions;
  appView : Reactions;
  communityView : Reactions;
  pending : list (list Effect)
}.

Inductive Event :=
| SaveLinks          (* saveScanToFirebase writes links/{key} for a fresh scan *)
| AppLike            (* like button of the main view *)
| AppDislike         (* dislike button of the main view *)
| AppLoad            (* loadHistory of the main view *)
| AppRealtime        (* realtime listener of the main view *)
| CommunityLike      (* a click that starts handleLike *)
| CommunityDislike   (* a click that starts handleDislike *)
| CommunityAdvance (k : nat)   (* the k-th handler started does its next write or update *)
| CommunityRefresh.  (* loadScans / realtime listener of the community view *)

(** The reaction fields of every result [scoreUrl] builds. *)
Definition fresh : Reactions := mkReactions (Some 0) (Some 0) None.

Definition apply_effect (s : Shared) (e : Effect) : Shared :=
  match e with
  | WriteLikes v =>
      mkShared (links s)
        (mkReactions v (r_dislikes (hist s)) (r_userReaction (hist s)))
        (appView s) (communityView s) (pending s)
  | WriteDislikes v =>
      mkShared (links s)
        (mkReactions (r_likes (hist s)) v (r_userReaction (hist s)))
        (appView s) (communityView s) (pending s)
  | WriteReaction u =>
      mkShared (links s)
        (mkReactions (r_likes (hist s)) (r_dislikes (hist s)) u)
        (appView s) (communityView s) (pending s)
  | SetEntry r =>
      mkShared (links s) (hist s) (appView s) r (pending s)
  end.

(** The [k]-th list with its first element taken off. *)
Fixpoint drop_first_of {A} (k : nat) (l : list (list A)) : list (list A) :=
  match k, l with
  | _, [] => []
  | O, x :: rest => tl x :: rest
  | S k', x :: rest => x :: drop_first_of k' rest
  end.

Definition with_pending (s : Shared) (p : list (list Effect)) : Shared :=
  mkShared (links s) (hist s) (appView s) (communityView s) p.

Definition step (s : Shared) (e : Event) : Shared :=
  match e with
  | SaveLinks =>
      mkShared (Some (savedLinks fresh)) (hist s) (appView s) (communityView s) (pending s)
  | AppLike =>
      let r := App_like (appView s) in
      mkShared (Some r) (hist s) r (communityView s) (pending s)
  | AppDislike =>
      let r := App_dislike (appView s) in
      mkShared (Some r) (hist s) r (communityView s) (pending s)
  | AppLoad =>
      mkShared (links s) (hist s) (loadMerge (links s)) (communityView s) (pending s)
  | AppRealtime =>
      (* the listener's [history] is the one of the first render: empty *)
      mkShared (links s) (hist s) (mergeEntry (links s) (hist s) None) (communityView s)
        (pending s)
  | CommunityLike =>
      with_pending s (pending s ++ [handleLike_effects (communityView s)])
  | CommunityDislike =>
      with_pending s (pending s ++ [handleDislike_effects (communityView s)])
  | CommunityAdvance k =>
      match nth_error (pending s) k with
      | Some (e :: _) =>
          with_pending (apply_effect s e) (drop_first_of k (pending s))
      | _ => s
      end
  | CommunityRefresh =>
      mkShared (links s) (hist s) (appView s) (hist s) (pending s)
  end.

(** The state right after a scan has been pushed to [history]. *)
Definition justScanned : Shared := mkShared None fresh fresh fresh [].

Definition run (events : list Event) : Shared := fold_left step events justScanned.

(** The events of the main view. *)
Definition main_view_event (e : Event) : bool :=
  match e with
  | SaveLinks | AppLike | AppDislike | AppLoad | AppRealtime => true
  | _ => false
  end.

(** In the community view: a like, run to its end; then a dislike, of
    which only the first two writes (dislikes, likes) have been done when
    the listener delivers the record and the like button is clicked
    again; then the first write of that last handler, and the listener
    once more. *)
Definition like_clicked_during_dislike : list Event :=
  [CommunityLike; CommunityAdvance 0; CommunityAdvance 0; CommunityAdvance 0;
   CommunityAdvance 0;
   CommunityDislike; CommunityAdvance 1; CommunityAdvance 1; CommunityRefresh;
   CommunityLike; CommunityAdvance 2; CommunityRefresh].

(** ** Input validation ([src/App.tsx], lines 587-590) *)

Definition label_char (c : ascii) : bool :=
  JS.is_alpha c || JS.is_digit c || Ascii.eqb c "-".

(** [[a-zA-Z0-9-]+] *)
Definition domain_label (l : string) : bool :=
  negb (String.eqb l EmptyString) && JS.all_chars label_char l.

(** [[a-zA-Z]{2,}] *)
Definition top_level_label (l : string) : bool :=
  Nat.leb 2 (String.length l) && JS.all_chars JS.is_alpha l.

(** [/^([a-zA-Z0-9-]+\.)+[a-zA-Z]{2,}$/]: labels are the parts between
    dots; the last is alphabetic, and at least one stands before it. *)
Definition dotted_domain (h : string) : bool :=
  match rev (JS.split "." h) with
  | tld :: l :: ls => top_level_label tld && forallb domain_label (l :: ls)
  | _ => false
  end.

(** The first pattern of [validateInput]: a dotted domain as above,
    then optionally a slash and any characters up to the end.  No label
    holds a slash, so the domain is the text before the first slash, and
    what follows the slash is any text without a line terminator. *)
Definition bare_address (v : string) : bool :=
  dotted_domain (JS.split_head "/" v)
  && match JS.after_first "/" v with
     | None => true
     | Some rest => JS.all_chars (fun c => negb (JS.is_line_terminator c)) rest
     end.

(** [/^https?:\/\//] *)
Definition has_scheme (v : string) : bool :=
  JS.startsWith v "http://" || JS.startsWith v "https://".

Definition validateInput (v : string) : bool :=
  if JS.blank v then false
  else bare_address v || has_scheme v.

(** ** The domain existence gate ([src/App.tsx], lines 321-373) *)

Definition wellKnownDomains : list string :=
  ["google.com"; "youtube.com"; "facebook.com"; "amazon.com";
   "ebay.com"; "wikipedia.org"; "twitter.com"; "instagram.com";
   "linkedin.com"; "microsoft.com"; "apple.com"; "netflix.com";
   "github.com"; "stackoverflow.com"; "khanacademy.org"; "coursera.org"].

Definition isWellKnown (host : string) : bool :=
  let cleanHost := JS.strip_prefix "www." host in
  existsb (fun domain =>
             String.eqb cleanHost domain || JS.endsWith cleanHost ("." ++ domain))
          wellKnownDomains.

Definition urlsToTry (host : string) : list string :=
  ["https://" ++ host ++ "/favicon.ico";
   "https://www." ++ host ++ "/favicon.ico";
   "http://" ++ host ++ "/favicon.ico";
   "http://www." ++ host ++ "/favicon.ico"].

(** [[...new Set(l)]]: the first occurrence of each element, in order. *)
Fixpoint uniq_from (seen l : list string) : list string :=
  match l with
  | [] => []
  | x :: rest =>
      if existsb (String.eqb x) seen then uniq_from seen rest
      else x :: uniq_from (x :: seen) rest
  end.

Definition uniq (l : list string) : list string := uniq_from [] l.

(** The probing loop.  [fetch u] tells whether the request for [u]
    resolves before its three-second abort.  The result comes with the
    addresses requested, in order. *)
Fixpoint probe (fetch : string -> bool) (urls : list string) : bool * list string :=
  match urls with
  | [] => (false, [])
  | u :: rest =>
      if fetch u then (true, [u])
      else let r := probe fetch rest in (fst r, u :: snd r)
  end.

Definition isDomainValid_requests (fetch : string -> bool) (host : string)
  : bool * list string :=
  if isWellKnown host then (true, [])
  else probe fetch (uniq (urlsToTry host)).

Definition isDomainValid (fetch : string -> bool) (host : string) : bool :=
  fst (isDomainValid_requests fetch host).

(** ** Storage keys ([src/App.tsx], lines 380-387; [src/Community.tsx], line 60) *)

(** The class [[.#$/\[\]]]. *)
Definition key_unsafe (c : ascii) : bool :=
  Ascii.eqb c "." || Ascii.eqb c "#" || Ascii.eqb c "$" || Ascii.eqb c "/"
  || Ascii.eqb c "[" || Ascii.eqb c "]".

(** [s.replace(/[.#$/\[\]]/g, "_")] *)
Definition sanitize (s : string) : string := JS.replace_class key_unsafe "_" s.

(** [safeKey] of [src/App.tsx]. *)
Definition safeKey (URL : string -> option Location) (url : string) : string :=
  match URL (if JS.startsWith url "http" then url else "https://" ++ url) with
  | Some u => sanitize (hostname u) ++ sanitize (pathname u)
  | None => sanitize url
  end.

(** [safeKey] of [src/Community.tsx]. *)
Definition Community_safeKey (url : string) : string := sanitize url.

(** ** The analysis flow ([src/App.tsx], lines 592-636) *)

(** [runExternalCheck] as created in one render: [captured] is the value
    of [scan] in that render, which the function body reads; the state
    setters act on the state current when they run.  A click on the
    button runs it with [captured = scan st]. *)
Definition runExternalCheckIn (getTime : string -> option Z)
    (captured : option ScanResult) (st : AppState) (o : FetchOutcome) : AppState :=
  match captured with
  | None => st
  | Some sc =>
      match realExternalLookup o with
      | None => mkAppState (scan st) (history st) false (Some api_failed_note)
      | Some ext =>
          let updated := updatedScan sc ext in
          mkAppState (Some updated)
            (firstn 5
               (Array_sort (sortScans getTime)
                  (map (fun s => if String.eqb (id s) (id sc) then updated else s)
                       (history st))))
            false None
      end
  end.

Definition invalid_address_message :=
  "Please enter a valid address like example.com or https://example.com".
Definition unreachable_message := "The domain does not exist or cannot be reached.".

(** [handleAnalyze], as the state updates it issues itself: [input] and
    [st] are the text field and the view state of the render whose form
    is submitted, [fetch] answers the reachability probes, [newId] and
    [now] are the identifier and the clock reading given to [scoreUrl],
    and [o] is what the remote lookup does if it is run.  Writes to the
    store, and the updates its listeners issue, are not part of it. *)
Definition handleAnalyze (getTime : string -> option Z)
    (URL : string -> option Location) (fetch : string -> bool)
    (input : string) (st : AppState) (newId now : string) (o : FetchOutcome)
  : AppState :=
  if negb (validateInput input) then
    mkAppState (scan st) (history st) (loading st) (Some invalid_address_message)
  else
    let host := host (parseHost URL input) in
    let exists_ := isDomainValid fetch host in
    if negb exists_ then
      mkAppState None (history st) false (Some unreachable_message)
    else
      let scanResult := scoreUrl URL input newId now in
      let st1 := mkAppState (Some scanResult)
                   (firstn 5 (scanResult :: history st)) true None in
      let st2 :=
        if (3 <? safety scanResult) && (safety scanResult <=? 6)
        then runExternalCheckIn getTime (scan st) st1 o
        else st1 in
      mkAppState (scan st2) (history st2) false (error st2).

(** ** Comment attachments ([src/App.tsx], lines 1054-1145) *)

Record File := mkFile {
  file_type : string;
  file_size : Z
}.

(** The two checks of the upload loop (lines 1062-1071). *)
Definition acceptable (f : File) : bool :=
  (String.eqb (file_type f) "image/png" || String.eqb (file_type f) "image/jpeg")
  && negb (6 * 1024 * 1024 <? file_size f).

(** The files a reader is started for: the loop stops at the third file. *)
Definition readersStarted (files : list File) : list File :=
  filter acceptable (firstn 3 files).

(** The state update of one finished reader (lines 1077-1089). *)
Definition onImageLoaded (newCommentImages : option (list string)) (base64 : string)
  : list string :=
  firstn 3 ((match newCommentImages with Some l => l | None => [] end) ++ [base64]).

(** The guard of the Comment button (line 1123). *)
Definition commentRejected (newComment : option string)
    (newCommentImages : option (list string)) : bool :=
  match newComment with Some t => JS.blank t | None => true end
  && match newCommentImages with Some (_ :: _) => false | _ => true end.

(** [h.newComment?.trim() || ''] *)
Definition commentText (newComment : option string) : string :=
  match newComment with Some t => JS.trim t | None => EmptyString end.

(** ** The community view's search and load ([src/Community.tsx], lines 86-119) *)

Definition filteredHistory (search : string) (history : list Community.ScanResult)
  : list Community.ScanResult :=
  filter (fun h => JS.includes (JS.toLowerCase_latin1 (Community.url h))
                               (JS.toLowerCase_latin1 search))
         history.

(** [data.sort(sortScans); setHistory(data.slice(0, 20))] *)
Definition Community_loadScans (getTime : string -> option Z)
    (data : list Community.ScanResult) : list Community.ScanResult :=
  firstn 20 (Array_sort (Community.sortScans getTime) data).

(** The record's tier is one of the three names, or no property of the
    object literal at all, own or inherited. *)
Definition own_or_absent_tier (s : Community.ScanResult) : Prop :=
  Community.tierPriority (Community.tier s) <> Community.Inherited.

(** The rank the comparator gives such a record: 3, 2, 1 for the three
    names, 0 for any other text. *)
Definition Community_rank (s : Community.ScanResult) : Z :=
  match Community.tierPriority (Community.tier s) with
  | Community.Own v => v
  | _ => 0
  end.

(** The code units 0xC9 and 0xE9: E with acute accent, capital and small. *)
Definition capital_e_acute : string := String (ascii_of_nat 201) EmptyString.
Definition small_e_acute : string := String (ascii_of_nat 233) EmptyString.

(** A record whose address holds the small accented letter. *)
Definition cafe_record : Community.ScanResult :=
  Community.mkScanResult "id-8" ("https://caf" ++ small_e_acute ++ ".example/") 7 "Safe"
    "#10b981" "1/1/2024, 12:00:00 AM" (Some 0) (Some 0) None.

(** ** The rule-based scan of the earlier front end ([src/unnamed/part_000]) *)

(** [\d+] at the start of [s]: the text after the digits, if there is
    at least one digit. *)
Fixpoint skip_digits (s : string) : string :=
  match s with
  | String c rest => if JS.is_digit c then skip_digits rest else s
  | EmptyString => EmptyString
  end.

Definition digits_then (s : string) : option string :=
  match s with
  | String c rest => if JS.is_digit c then Some (skip_digits rest) else None
  | EmptyString => None
  end.

(** [\d+\.] at the start of [s]. *)
Definition digits_dot_then (s : string) : option string :=
  match digits_then s with
  | Some (String c rest) => if Ascii.eqb c "." then Some rest else None
  | _ => None
  end.

(** [\d+\.\d+\.\d+\.\d+] at the start of [s]. *)
Definition ip_at_start (s : string) : bool :=
  match digits_dot_then s with
  | Some s1 =>
      match digits_dot_then s1 with
      | Some s2 =>
          match digits_dot_then s2 with
          | Some s3 => match digits_then s3 with Some _ => true | None => false end
          | None => false
          end
      | None => false
      end
  | None => false
  end.

(** [/\d+\.\d+\.\d+\.\d+/.test(s)] *)
Fixpoint has_ip (s : string) : bool :=
  ip_at_start s
  || match s with
     | String _ rest => has_ip rest
     | EmptyString => false
     end.

Definition suspiciousWords : list string := ["login"; "verify"; "secure"; "update"; "bank"].

Definition double_quote : string := String (ascii_of_nat 34) EmptyString.

Definition keyword_reason (word : string) : string :=
  "Suspicious keyword detected: " ++ double_quote ++ word ++ double_quote.

Definition ruleBasedScan (inputUrl : string) : list string :=
  let reasons : list string := [] in
  let reasons := push_if (negb (JS.startsWith inputUrl "https://"))
                   "URL does not use HTTPS" reasons in
  let reasons := push_if (JS.includes inputUrl "@") "URL contains '@' symbol" reasons in
  let reasons := push_if (75 <? JS.length inputUrl) "URL length is unusually long" reasons in
  let reasons := push_if (has_ip inputUrl) "IP address used instead of domain name" reasons in
  fold_left (fun reasons word =>
               push_if (JS.includes (JS.toLowerCase inputUrl) word)
                       (keyword_reason word) reasons)
            suspiciousWords reasons.

Record ScanResponse := mkScanResponse {
  flagged : bool;
  sr_reasons : list string
}.

Record PhishState := mkPhishState {
  ph_result : option ScanResponse;
  ph_error : option string;
  ph_loading : bool
}.

(** [handleScan]: [backend] is what the request to the scan service
    does, with the parsed body of a resolved request. *)
Definition handleScan (url : string) (st : PhishState)
    (backend : option (bool * option ScanResponse)) : PhishState :=
  if JS.blank url then
    mkPhishState (ph_result st) (Some "Please enter a URL.") (ph_loading st)
  else
    let ruleReasons := ruleBasedScan url in
    match backend with
    | Some (true, Some apiResult) =>
        mkPhishState
          (Some (mkScanResponse (negb (is_nil ruleReasons) || flagged apiResult)
                                (ruleReasons ++ sr_reasons apiResult)%list))
          None false
    | _ => mkPhishState None (Some "Could not connect to backend. Is it running?") false
    end.

(** ** Sample data

    Replies of the remote service and results used as concrete inputs. *)

Definition bad_login_url := "http://badsite-login.com/verify-account".

Definition clean_reply : ExtResponse :=
  mkExtResponse (Some "clean") (Some "No threats found")
    (Some [("virustotal", mkSubCheck (Some true) (Some "clean") (Some "0 detections"))]).

Definition suspicious_reply : ExtResponse :=
  mkExtResponse (Some "suspicious") (Some "One engine flagged the link")
    (Some [("virustotal", mkSubCheck (Some true) (Some "suspicious") (Some "1 detection"))]).

Definition malicious_reply : ExtResponse :=
  mkExtResponse (Some "malicious") (Some "Known phishing page")
    (Some [("virustotal", mkSubCheck (Some true) (Some "malicious") (Some "12 detections"))]).

(** A reply in which the one sub-check failed, with a malicious verdict. *)
Definition all_failed_reply : ExtResponse :=
  mkExtResponse (Some "malicious") (Some "Lookups unavailable")
    (Some [("virustotal", mkSubCheck (Some false) (Some "error") (Some "timeout"))]).

(** A mid-tier result: http://example.com/ scores 6. *)
Definition midScan : ScanResult :=
  scoreUrl sampleURL "http://example.com/" "id-1" "1/1/2024, 12:00:00 AM".

Definition midState : AppState := mkAppState (Some midScan) [midScan] false None.

(** The state after a first, clean external check of [midScan]. *)
Definition checkedState : AppState :=
  runExternalCheck sampleDate midState (FetchResolved true (Some clean_reply)).

(** A second result of the same tier, dislikes and second as [midScan]. *)
Definition twinScan : ScanResult :=
  scoreUrl sampleURL "http://example.org/" "id-2" "1/1/2024, 12:00:00 AM".

(** A result of the Safe tier, and one of the High Risk tier. *)
Definition safeScan : ScanResult :=
  scoreUrl sampleURL "https://www.google.com/" "id-3" "1/2/2024, 12:00:00 AM".

Definition riskyScan : ScanResult :=
  scoreUrl sampleURL bad_login_url "id-4" "1/3/2024, 12:00:00 AM".

(** ** Notions used to state the properties *)

(** Points of one check: [yes] when it passes, [no] otherwise. *)
Definition pts (passed : bool) (yes no : Z) : Z := if passed then yes else no.

(** The invariant behind non-negative counters: both counters are
    non-negative, and a recorded like (dislike) is counted at least once. *)
Definition counters_ok (r : Reactions) : Prop :=
  0 <= JS.or0 (r_likes r)
  /\ 0 <= JS.or0 (r_dislikes r)
  /\ (r_userReaction r = Some like -> 1 <= JS.or0 (r_likes r))
  /\ (r_userReaction r = Some dislike -> 1 <= JS.or0 (r_dislikes r)).

(** No counter kept in the value [r] is negative, neither as stored nor
    as either view displays it. *)
Definition counters_nonneg (r : Reactions) : Prop :=
  (forall v, r_likes r = Some v -> 0 <= v)
  /\ (forall v, r_dislikes r = Some v -> 0 <= v)
  /\ 0 <= App_shown (r_likes r) /\ 0 <= App_shown (r_dislikes r)
  /\ 0 <= Community.shown (r_likes r) /\ 0 <= Community.shown (r_dislikes r).

Definition links_ok (l : option Reactions) : Prop :=
  match l with Some r => counters_ok r | None => True end.

Definition shared_ok (s : Shared) : Prop :=
  links_ok (links s) /\ counters_ok (hist s)
  /\ counters_ok (appView s) /\ counters_ok (communityView s).

Ltac reaction_cases :=
  repeat match goal with
    | r : Reactions |- _ => destruct r as [[?|] [?|] [[|]|]]
    | l : option Reactions |- _ => destruct l
    end.

Ltac solve_counters :=
  unfold links_ok, counters_ok, counters_nonneg, App_shown, Community.shown in *;
  cbn in *;
  repeat match goal with
    | H : _ /\ _ |- _ => destruct H
    | H : ?x = ?x -> _ |- _ => specialize (H eq_refl)
    end;
  repeat split; intros; try congruence; try lia.

(** The ranking in the words of the specification: a riskier tier comes
    first, then more dislikes (in the community view then more likes),
    then the newer timestamp. *)
Definition riskier (x y : Tier) : Prop :=
  match x, y with
  | HighRisk, BeCareful | HighRisk, Safe | BeCareful, Safe => True
  | _, _ => False
  end.

Definition dislikes_of (s : ScanResult) : Z := JS.nullish (dislikes s) 0.
Definition likes_of (s : ScanResult) : Z := JS.nullish (likes s) 0.

Definition primary_before (ta tb : Z) (a b : ScanResult) : Prop :=
  riskier (tier a) (tier b)
  \/ (tier a = tier b
      /\ (dislikes_of b < dislikes_of a
          \/ (dislikes_of a = dislikes_of b /\ tb < ta))).

Definition primary_tie (ta tb : Z) (a b : ScanResult) : Prop :=
  tier a = tier b /\ dislikes_of a = dislikes_of b /\ ta = tb.

Definition community_before (ta tb : Z) (a b : ScanResult) : Prop :=
  riskier (tier a) (tier b)
  \/ (tier a = tier b
      /\ (dislikes_of b < dislikes_of a
          \/ (dislikes_of a = dislikes_of b
              /\ (likes_of b < likes_of a
                  \/ (likes_of a = likes_of b /\ tb < ta))))).

Definition community_tie (ta tb : Z) (a b : ScanResult) : Prop :=
  tier a = tier b /\ dislikes_of a = dislikes_of b
  /\ likes_of a = likes_of b /\ ta = tb.

(** The first difference that is not zero, or zero. *)
Fixpoint first_nonzero (ds : list Z) : Z :=
  match ds with
  | [] => 0
  | d :: rest => if d =? 0 then first_nonzero rest else d
  end.

Ltac first_nonzero_cases :=
  unfold first_nonzero;
  repeat match goal with
    | |- context [?x =? 0] => destruct (Z.eqb_spec x 0)
    | H : context [?x =? 0] |- _ => destruct (Z.eqb_spec x 0)
    end.

(** [x] may stand before [y]: the comparator does not send it after. *)
Definition not_after {A} (cmp : A -> A -> option Z) (x y : A) : Prop :=
  goes_after (cmp x y) = false.

(** ** Notions used to state further properties *)

(** The outcome of the seven checks of [scoreUrl] on an input. *)
Record Signals := mkSignals {
  sig_https : bool;
  sig_ssl : bool;
  sig_notBlacklisted : bool;
  sig_clean : bool;
  sig_noKeywords : bool;
  sig_established : bool;
  sig_noRedirects : bool
}.

Definition signals (URL : string -> option Location) (raw : string) : Signals :=
  let h := host (parseHost URL raw) in
  mkSignals
    (JS.startsWith raw "https://"
     || JS.test_i known_safe_domains (JS.toLowerCase h) && negb (JS.startsWith raw "http://"))
    (mockHasValidSsl raw)
    (negb (mockIsBlacklisted h))
    (isShortAndClean h)
    (negb (hasUrgentKeywords (JS.toLowerCase h) || hasUrgentKeywords (JS.toLowerCase raw)))
    (180 <? mockDomainAgeDays h)
    (negb (mockHasExcessiveRedirects URL raw)).

Definition breakdown_of (g : Signals) : Breakdown :=
  [("https", pts (sig_https g) 2 0); ("ssl", pts (sig_ssl g) 2 0);
   ("blacklisted", pts (sig_notBlacklisted g) 2 (-2));
   ("cleanDomain", pts (sig_clean g) 1 0);
   ("suspiciousKeywords", pts (sig_noKeywords g) 1 (-1));
   ("domainAge", pts (sig_established g) 1 0);
   ("redirects", pts (sig_noRedirects g) 1 (-1))].

Definition safety_of (g : Signals) : Z :=
  clamp (fold_left Z.add (Object_values (breakdown_of g)) 0) 0 10.

(** The reasons [scoreUrl] builds from a breakdown and a safety
    (lines 249-269). *)
Definition reasons_of (bd : Breakdown) (safety : Z) : list string :=
  let reasons : list string := [] in
  let reasons := if safety <=? 6 then push_cautions bd reasons else reasons in
  let reasons := if is_nil reasons || (6 <? safety)
                 then push_confirmations bd reasons else reasons in
  if is_nil reasons then (reasons ++ [fallback_reason])%list else reasons.

Definition cautions : list string :=
  [caution_blacklist; caution_keywords; caution_redirects;
   caution_https; caution_ssl; caution_age].

Definition all_cautions (rs : list string) : bool :=
  forallb (fun r => existsb (String.eqb r) cautions) rs.

(** Every confirmation of [scoreUrl] starts with the check mark. *)
Definition all_confirmations (rs : list string) : bool :=
  forallb (fun r => JS.startsWith r "✔") rs.

(** The colour that goes with a tier. *)
Definition tierColor (t : Tier) : string :=
  match t with
  | HighRisk => "#ef4444"
  | BeCareful => "#f59e0b"
  | Safe => "#10b981"
  end.

(** The votes other than the viewer's own. *)
Definition others_likes (r : Reactions) : Z :=
  JS.or0 (r_likes r) - (if reaction_is (r_userReaction r) like then 1 else 0).

Definition others_dislikes (r : Reactions) : Z :=
  JS.or0 (r_dislikes r) - (if reaction_is (r_userReaction r) dislike then 1 else 0).

Ltac all_signals g := destruct g as [[] [] [] [] [] [] []].

(** The text does not start, or does not end, with white space. *)
Definition starts_clean (s : string) : Prop :=
  match s with
  | String c _ => JS.is_space c = false
  | EmptyString => True
  end.

Fixpoint last_char (s : string) : option ascii :=
  match s with
  | EmptyString => None
  | String c EmptyString => Some c
  | String _ rest => last_char rest
  end.

Definition ends_clean (s : string) : Prop :=
  match last_char s with
  | Some c => JS.is_space c = false
  | None => True
  end.

(** * Properties *)

(** ** The scoring engine *)

Lemma clamp_range v a b : a <= b -> a <= clamp v a b <= b.
Proof. unfold clamp. lia. Qed.

Lemma clampQ_nonneg v : (0 <= clampQ v)%Q.
Proof. unfold clampQ. apply Q.le_max_l. Qed.

Lemma clampQ_le_1 v : (v <= 1)%Q -> (clampQ v <= 1)%Q.
Proof.
  intros Hv. unfold clampQ. apply Q.max_lub.
  - discriminate.
  - apply Qle_trans with v; [apply Q.le_min_r | exact Hv].
Qed.

Lemma tenth_le_1 (n : Z) : n <= 10 -> (inject_Z n / inject_Z 10 <= 1)%Q.
Proof.
  intros Hn. unfold Qle, Qdiv, Qmult, Qinv, inject_Z. simpl. lia.
Qed.

(** Whatever the input, [scoreUrl] runs its seven checks in order; each
    leaves one entry in [breakdown], and the score is their sum. *)
Lemma scoreUrl_shape URL raw newId now :
  exists h s b c k a r : bool,
    let bd := [("https", pts h 2 0); ("ssl", pts s 2 0); ("blacklisted", pts b 2 (-2));
               ("cleanDomain", pts c 1 0); ("suspiciousKeywords", pts k 1 (-1));
               ("domainAge", pts a 1 0); ("redirects", pts r 1 (-1))] in
    breakdown (scoreUrl URL raw newId now) = bd
    /\ safety (scoreUrl URL raw newId now)
       = clamp (fold_left Z.add (Object_values bd) 0) 0 10
    /\ confidence (scoreUrl URL raw newId now)
       = clampQ (inject_Z (positiveScoreOf bd) / inject_Z 10)%Q.
Proof.
  unfold scoreUrl. cbv zeta.
  generalize (JS.startsWith raw "https://"
              || JS.test_i known_safe_domains (JS.toLowerCase (host (parseHost URL raw)))
                 && negb (JS.startsWith raw "http://"))%bool.
  generalize (mockHasValidSsl raw).
  generalize (negb (mockIsBlacklisted (host (parseHost URL raw)))).
  generalize (isShortAndClean (host (parseHost URL raw))).
  generalize (negb (hasUrgentKeywords (JS.toLowerCase (host (parseHost URL raw)))
                    || hasUrgentKeywords (JS.toLowerCase raw))).
  generalize (180 <? mockDomainAgeDays (host (parseHost URL raw))).
  generalize (negb (mockHasExcessiveRedirects URL raw)).
  intros c7 c6 c5 c4 c3 c2 c1.
  exists c1, c2, c3, c4, c5, c6, c7.
  destruct c1, c2, c3, c4, c5, c6, c7; repeat split; reflexivity.
Qed.

Lemma positiveScore_le_10 (h s b c k a r : bool) :
  0 <= positiveScoreOf
    [("https", pts h 2 0); ("ssl", pts s 2 0); ("blacklisted", pts b 2 (-2));
     ("cleanDomain", pts c 1 0); ("suspiciousKeywords", pts k 1 (-1));
     ("domainAge", pts a 1 0); ("redirects", pts r 1 (-1))] <= 10.
Proof. destruct h, s, b, c, k, a, r; vm_compute; split; discriminate. Qed.

(** C1.  For every raw input string, the result of [scoreUrl] has a
    safety that is an integer between 0 and 10 and a confidence between
    0 and 1. *)
Theorem scoreUrl_safety_and_confidence_in_range :
  forall (URL : string -> option Location) (raw newId now : string),
    0 <= safety (scoreUrl URL raw newId now) <= 10
    /\ (0 <= confidence (scoreUrl URL raw newId now))%Q
    /\ (confidence (scoreUrl URL raw newId now) <= 1)%Q.
Proof.
  intros URL raw newId now.
  destruct (scoreUrl_shape URL raw newId now)
    as (h & s & b & c & k & a & r & _ & Hsafety & Hconf).
  rewrite Hsafety, Hconf. split; [| split].
  - apply clamp_range. lia.
  - apply clampQ_nonneg.
  - apply clampQ_le_1, tenth_le_1, positiveScore_le_10.
Qed.

(** C10.  For every raw input string, the breakdown of the result of
    [scoreUrl] has exactly the seven keys https, ssl, blacklisted,
    cleanDomain, suspiciousKeywords, domainAge and redirects, with values
    in {0,2}, {0,2}, {-2,2}, {0,1}, {-1,1}, {0,1} and {-1,1}; so its
    strictly positive entries sum to at most 10. *)
Theorem scoreUrl_breakdown_keys_and_values :
  forall (URL : string -> option Location) (raw newId now : string),
    let bd := breakdown (scoreUrl URL raw newId now) in
    Object_keys bd = ["https"; "ssl"; "blacklisted"; "cleanDomain";
                      "suspiciousKeywords"; "domainAge"; "redirects"]
    /\ (lookup bd "https" = Some 0 \/ lookup bd "https" = Some 2)
    /\ (lookup bd "ssl" = Some 0 \/ lookup bd "ssl" = Some 2)
    /\ (lookup bd "blacklisted" = Some (-2) \/ lookup bd "blacklisted" = Some 2)
    /\ (lookup bd "cleanDomain" = Some 0 \/ lookup bd "cleanDomain" = Some 1)
    /\ (lookup bd "suspiciousKeywords" = Some (-1) \/ lookup bd "suspiciousKeywords" = Some 1)
    /\ (lookup bd "domainAge" = Some 0 \/ lookup bd "domainAge" = Some 1)
    /\ (lookup bd "redirects" = Some (-1) \/ lookup bd "redirects" = Some 1)
    /\ positiveScoreOf bd <= 10.
Proof.
  intros URL raw newId now bd. subst bd.
  destruct (scoreUrl_shape URL raw newId now)
    as (h & s & b & c & k & a & r & Hbd & _).
  rewrite Hbd. split; [reflexivity |].
  repeat split; try apply positiveScore_le_10.
  - destruct h; [right | left]; reflexivity.
  - destruct s; [right | left]; reflexivity.
  - destruct b; [right | left]; reflexivity.
  - destruct c; [right | left]; reflexivity.
  - destruct k; [right | left]; reflexivity.
  - destruct a; [right | left]; reflexivity.
  - destruct r; [right | left]; reflexivity.
Qed.

(** C8.  For the input http://badsite-login.com/verify-account, whose
    host the address parser reads as badsite-login.com, [scoreUrl] gives
    safety 0 (the total of the breakdown is negative and is clamped at
    0), tier High Risk, and reasons that include the blacklist, the
    suspicious-keyword and the missing-HTTPS cautions. *)
Theorem scoreUrl_bad_login_example :
  forall (URL : string -> option Location) (u : Location) (newId now : string),
    URL bad_login_url = Some u ->
    hostname u = "badsite-login.com" ->
    let r := scoreUrl URL bad_login_url newId now in
    fold_left Z.add (Object_values (breakdown r)) 0 < 0
    /\ safety r = 0
    /\ tier r = HighRisk
    /\ In caution_blacklist (reasons r)
    /\ In caution_keywords (reasons r)
    /\ In caution_https (reasons r).
Proof.
  intros URL u newId now HU Hhost r. subst r.
  assert (Hh : host (parseHost URL bad_login_url) = "badsite-login.com").
  { unfold parseHost. change (JS.startsWith bad_login_url "http") with true.
    cbv iota. rewrite HU. exact Hhost. }
  unfold scoreUrl, mockHasExcessiveRedirects. rewrite Hh.
  vm_compute. repeat split; auto 10.
Qed.

Lemma scoreUrl_bad_login_example_witness :
  let r := scoreUrl sampleURL bad_login_url "id-1" "1/1/2024, 12:00:00 AM" in
  fold_left Z.add (Object_values (breakdown r)) 0 < 0
  /\ safety r = 0
  /\ tier r = HighRisk
  /\ In caution_blacklist (reasons r)
  /\ In caution_keywords (reasons r)
  /\ In caution_https (reasons r).
Proof.
  apply (scoreUrl_bad_login_example sampleURL
           (mkLocation "badsite-login.com" "/verify-account" EmptyString)).
  - reflexivity.
  - reflexivity.
Defined.

(** ** The tier classifier *)

Lemma tier_of_updatedScan sc ext :
  tier (updatedScan sc ext) = finalTierOf (safety (updatedScan sc ext)).
Proof. reflexivity. Qed.

Lemma tier_of_scoreUrl URL raw newId now :
  tier (scoreUrl URL raw newId now) = tierOf (safety (scoreUrl URL raw newId now)).
Proof. reflexivity. Qed.

(** C5.  The tier is a step function of safety alone, the same wherever
    it is computed: for every integer safety between 0 and 10, safety at
    most 3 is High Risk, safety above 3 and at most 6 is Be Careful,
    safety above 6 is Safe; the scoring engine and the reconciler both
    derive the tier of their result from its safety by this mapping; and
    the tiers of 0, 3, 4, 6, 7 and 10 are High Risk, High Risk, Be
    Careful, Be Careful, Safe and Safe. *)
Theorem tier_is_step_function_of_safety :
  forall s : Z,
    0 <= s <= 10 ->
    (s <= 3 -> tierOf s = HighRisk)
    /\ (3 < s <= 6 -> tierOf s = BeCareful)
    /\ (6 < s -> tierOf s = Safe)
    /\ finalTierOf s = tierOf s
    /\ (forall URL raw newId now,
          tier (scoreUrl URL raw newId now) = tierOf (safety (scoreUrl URL raw newId now)))
    /\ (forall sc ext,
          tier (updatedScan sc ext) = tierOf (safety (updatedScan sc ext)))
    /\ tierOf 0 = HighRisk /\ tierOf 3 = HighRisk
    /\ tierOf 4 = BeCareful /\ tierOf 6 = BeCareful
    /\ tierOf 7 = Safe /\ tierOf 10 = Safe.
Proof.
  intros s Hs. unfold tierOf, finalTierOf.
  repeat split; try reflexivity.
  - intros H. destruct (Z.leb_spec s 3); [reflexivity | lia].
  - intros H. destruct (Z.leb_spec s 3); [lia |].
    destruct (Z.leb_spec s 6); [reflexivity | lia].
  - intros H. destruct (Z.leb_spec s 3); [lia |].
    destruct (Z.leb_spec s 6); [lia | reflexivity].
Qed.

Lemma tier_is_step_function_of_safety_witness :
  0 <= 5 <= 10 /\ tierOf 5 = BeCareful /\ finalTierOf 5 = tierOf 5.
Proof.
  split; [lia |].
  destruct (tier_is_step_function_of_safety 5 ltac:(lia)) as (_ & Hmid & _ & Hsame & _).
  split; [apply Hmid; lia | exact Hsame].
Defined.

(** ** The external verdict reconciler *)

Lemma adjustSafety_le safety ext : adjustSafety safety ext <= safety.
Proof.
  unfold adjustSafety.
  destruct (verdict_is _ "malicious"); [lia |].
  destruct (verdict_is _ "suspicious"); lia.
Qed.

Lemma runExternalCheck_scan getTime st sc o :
  scan st = Some sc ->
  scan (runExternalCheck getTime st o)
  = Some (match realExternalLookup o with
          | Some ext => updatedScan sc ext
          | None => sc
          end).
Proof.
  intros Hsc. unfold runExternalCheck. rewrite Hsc.
  destruct (realExternalLookup o); reflexivity.
Qed.

(** C2.  For every prior safety between 0 and 10 and every reply of the
    remote service, the safety after [runExternalCheck] is at most the
    prior safety: the verdict malicious gives min(safety, 1), the verdict
    suspicious gives min(safety, 4), and any other verdict, or no reply
    at all, leaves safety as it was. *)
Theorem runExternalCheck_only_lowers_safety :
  forall (getTime : string -> option Z) (st : AppState) (sc : ScanResult)
         (o : FetchOutcome),
    scan st = Some sc ->
    0 <= safety sc <= 10 ->
    exists sc',
      scan (runExternalCheck getTime st o) = Some sc'
      /\ safety sc' <= safety sc
      /\ (realExternalLookup o = None -> safety sc' = safety sc)
      /\ (forall ext,
            realExternalLookup o = Some ext ->
            (finalVerdict ext = Some "malicious" -> safety sc' = Z.min (safety sc) 1)
            /\ (finalVerdict ext = Some "suspicious" -> safety sc' = Z.min (safety sc) 4)
            /\ (finalVerdict ext <> Some "malicious" ->
                finalVerdict ext <> Some "suspicious" ->
                safety sc' = safety sc)).
Proof.
  intros getTime st sc o Hsc _.
  rewrite (runExternalCheck_scan getTime st sc o Hsc).
  eexists; split; [reflexivity |].
  destruct (realExternalLookup o) as [ext |].
  - split; [apply adjustSafety_le |]. split; [discriminate |].
    intros ext' Hext. injection Hext as <-.
    cbn [safety updatedScan]. unfold adjustSafety, verdict_is.
    repeat split.
    + intros ->. reflexivity.
    + intros ->. reflexivity.
    + intros Hm Hs. destruct (finalVerdict ext) as [v |]; [| reflexivity].
      destruct (String.eqb_spec v "malicious"); [congruence |].
      destruct (String.eqb_spec v "suspicious"); [congruence | reflexivity].
  - split; [lia |]. split; [reflexivity | discriminate].
Qed.

Lemma runExternalCheck_only_lowers_safety_witness :
  scan midState = Some midScan
  /\ 0 <= safety midScan <= 10
  /\ exists sc',
       scan (runExternalCheck sampleDate midState (FetchResolved true (Some suspicious_reply)))
       = Some sc'
       /\ safety sc' <= safety midScan.
Proof.
  split; [reflexivity |]. split; [vm_compute; split; discriminate |].
  destruct (runExternalCheck_only_lowers_safety sampleDate midState midScan
              (FetchResolved true (Some suspicious_reply)) eq_refl)
    as (sc' & Hscan & Hle & _).
  - vm_compute; split; discriminate.
  - exists sc'. split; assumption.
Defined.

(** C6, as stated, fails: on the mid-tier result [midScan] (safety 6) a
    verdict of suspicious, which is not malicious, lowers safety to 4. *)
Lemma mid_tier_suspicious_lowers_safety :
  4 <= safety midScan <= 6
  /\ finalVerdict suspicious_reply <> Some "malicious"
  /\ exists sc',
       scan (runExternalCheck sampleDate midState (FetchResolved true (Some suspicious_reply)))
       = Some sc'
       /\ safety sc' = 4
       /\ safety sc' <> safety midScan.
Proof.
  split; [vm_compute; split; discriminate |].
  split; [discriminate |].
  eexists. split; [reflexivity |]. split; vm_compute; [reflexivity | discriminate].
Qed.

(** C6, amended.  For every result with safety between 4 and 6,
    reconciling a verdict of malicious gives safety min(old, 1) = 1 and
    tier High Risk; a verdict of suspicious gives safety min(old, 4) = 4
    and tier Be Careful; any other verdict leaves safety and tier
    unchanged. *)
Theorem mid_tier_reconciliation :
  forall (getTime : string -> option Z) (st : AppState) (sc : ScanResult)
         (o : FetchOutcome) (ext : ExtResponse),
    scan st = Some sc ->
    4 <= safety sc <= 6 ->
    tier sc = tierOf (safety sc) ->
    realExternalLookup o = Some ext ->
    exists sc',
      scan (runExternalCheck getTime st o) = Some sc'
      /\ (finalVerdict ext = Some "malicious" ->
          safety sc' = Z.min (safety sc) 1 /\ safety sc' = 1 /\ tier sc' = HighRisk)
      /\ (finalVerdict ext = Some "suspicious" ->
          safety sc' = Z.min (safety sc) 4 /\ safety sc' = 4 /\ tier sc' = BeCareful)
      /\ (finalVerdict ext <> Some "malicious" ->
          finalVerdict ext <> Some "suspicious" ->
          safety sc' = safety sc /\ tier sc' = tier sc).
Proof.
  intros getTime st sc o ext Hsc Hmid Htier Hext.
  rewrite (runExternalCheck_scan getTime st sc o Hsc), Hext.
  eexists; split; [reflexivity |].
  cbn [safety tier updatedScan]. unfold adjustSafety, verdict_is.
  repeat split.
  - rewrite H. reflexivity.
  - rewrite H. cbn. lia.
  - rewrite H. cbn. replace (Z.min (safety sc) 1) with 1 by lia. reflexivity.
  - rewrite H. reflexivity.
  - rewrite H. cbn. lia.
  - rewrite H. cbn. replace (Z.min (safety sc) 4) with 4 by lia. reflexivity.
  - destruct (finalVerdict ext) as [v |]; [| reflexivity].
    destruct (String.eqb_spec v "malicious"); [congruence |].
    destruct (String.eqb_spec v "suspicious"); [congruence | reflexivity].
  - rewrite Htier.
    destruct (finalVerdict ext) as [v |]; [| reflexivity].
    destruct (String.eqb_spec v "malicious"); [congruence |].
    destruct (String.eqb_spec v "suspicious"); [congruence | reflexivity].
Qed.

Lemma mid_tier_reconciliation_witness :
  scan midState = Some midScan
  /\ 4 <= safety midScan <= 6
  /\ tier midScan = tierOf (safety midScan)
  /\ realExternalLookup (FetchResolved true (Some malicious_reply)) = Some malicious_reply
  /\ exists sc',
       scan (runExternalCheck sampleDate midState (FetchResolved true (Some malicious_reply)))
       = Some sc'
       /\ safety sc' = 1 /\ tier sc' = HighRisk.
Proof.
  split; [reflexivity |]. split; [vm_compute; split; discriminate |].
  split; [reflexivity |]. split; [reflexivity |].
  destruct (mid_tier_reconciliation sampleDate midState midScan
              (FetchResolved true (Some malicious_reply)) malicious_reply eq_refl)
    as (sc' & Hscan & Hmal & _).
  - vm_compute; split; discriminate.
  - reflexivity.
  - reflexivity.
  - exists sc'. split; [exact Hscan |].
    destruct (Hmal eq_refl) as (_ & H1 & Ht). split; assumption.
Defined.

(** C3, as stated, fails.  When the call fails at the network or with a
    non-success status, [apiCheck] is not set at all; when every
    sub-check of a reply reports failure, [apiCheck.checks] keeps the
    reply's sub-checks, and a malicious verdict still lowers safety. *)
Lemma failed_lookup_does_not_set_failed_apiCheck :
  (exists sc',
     scan (runExternalCheck sampleDate midState FetchRejected) = Some sc'
     /\ apiCheck sc' = None)
  /\ (exists sc',
        scan (runExternalCheck sampleDate midState (FetchResolved false (Some clean_reply)))
        = Some sc'
        /\ apiCheck sc' = None)
  /\ (didAllApisFail (ext_checks all_failed_reply) = true
      /\ exists sc' a,
           scan (runExternalCheck sampleDate midState
                   (FetchResolved true (Some all_failed_reply))) = Some sc'
           /\ apiCheck sc' = Some a
           /\ checks a <> []
           /\ safety sc' <> safety midScan).
Proof.
  split; [| split].
  - eexists. split; reflexivity.
  - eexists. split; reflexivity.
  - split; [reflexivity |].
    eexists. eexists. split; [reflexivity |]. split; [reflexivity |].
    split; vm_compute; discriminate.
Qed.

(** C3, amended.  When the remote call fails at the network, with a
    non-success status or with an unreadable body, [runExternalCheck]
    leaves the result as it was, [apiCheck] included, and sets the error
    message "External API scan failed".  When a reply arrives in which
    every sub-check reports failure, [apiCheck] becomes [{done: true,
    failed: true, note: "External API scan failed", checks: the reply's
    sub-checks}], and safety is lowered by the verdict as for any reply:
    it never rises, and it is unchanged unless the verdict is malicious
    or suspicious. *)
Theorem runExternalCheck_failure_outcomes :
  forall (getTime : string -> option Z) (st : AppState) (sc : ScanResult),
    scan st = Some sc ->
    (forall o,
       o = FetchRejected \/ (exists body, o = FetchResolved false body)
       \/ o = FetchResolved true None ->
       scan (runExternalCheck getTime st o) = Some sc
       /\ error (runExternalCheck getTime st o) = Some "External API scan failed"
       /\ loading (runExternalCheck getTime st o) = false)
    /\ (forall ext,
          didAllApisFail (ext_checks ext) = true ->
          exists cs sc',
            ext_checks ext = Some cs
            /\ scan (runExternalCheck getTime st (FetchResolved true (Some ext))) = Some sc'
            /\ apiCheck sc'
               = Some (mkApiCheck true (Some "External API scan failed") cs true)
            /\ safety sc' <= safety sc
            /\ (finalVerdict ext <> Some "malicious" ->
                finalVerdict ext <> Some "suspicious" ->
                safety sc' = safety sc)).
Proof.
  intros getTime st sc Hsc. split.
  - intros o Ho.
    assert (Hnone : realExternalLookup o = None).
    { destruct Ho as [-> | [[body ->] | ->]]; reflexivity. }
    unfold runExternalCheck. rewrite Hsc, Hnone. repeat split.
  - intros ext Hall.
    destruct (ext_checks ext) as [cs |] eqn:Hcs; [| discriminate Hall].
    exists cs. eexists. split; [reflexivity |].
    rewrite (runExternalCheck_scan getTime st sc _ Hsc). cbn [realExternalLookup].
    split; [reflexivity |].
    unfold updatedScan. cbn [apiCheck safety]. rewrite Hcs, Hall.
    repeat split.
    + apply adjustSafety_le.
    + intros Hm Hs. unfold adjustSafety, verdict_is.
      destruct (finalVerdict ext) as [v |]; [| reflexivity].
      destruct (String.eqb_spec v "malicious"); [congruence |].
      destruct (String.eqb_spec v "suspicious"); [congruence | reflexivity].
Qed.

Lemma runExternalCheck_failure_outcomes_witness :
  scan midState = Some midScan
  /\ scan (runExternalCheck sampleDate midState FetchRejected) = Some midScan
  /\ error (runExternalCheck sampleDate midState FetchRejected)
     = Some "External API scan failed".
Proof.
  split; [reflexivity |].
  destruct (runExternalCheck_failure_outcomes sampleDate midState midScan eq_refl)
    as (Hnone & _).
  destruct (Hnone FetchRejected (or_introl eq_refl)) as (Hscan & Herr & _).
  split; assumption.
Defined.

(** C4, as stated, fails: [runExternalCheck] has no guard of its own.  On
    a result whose [apiCheck.done] is already true, a second run that
    receives a malicious verdict changes safety, tier, color and
    [apiCheck]. *)
Lemma second_runExternalCheck_alters_done_result :
  exists sc sc',
    scan checkedState = Some sc
    /\ apiDone sc = true
    /\ scan (runExternalCheck sampleDate checkedState (FetchResolved true (Some malicious_reply)))
       = Some sc'
    /\ safety sc = 6 /\ safety sc' = 1
    /\ tier sc = BeCareful /\ tier sc' = HighRisk
    /\ color sc' <> color sc
    /\ apiCheck sc' <> apiCheck sc.
Proof.
  eexists. eexists.
  split; [reflexivity |]. split; [reflexivity |]. split; [reflexivity |].
  repeat split; try (vm_compute; reflexivity); vm_compute; discriminate.
Qed.

Lemma adjustSafety_idempotent safety ext :
  adjustSafety (adjustSafety safety ext) ext = adjustSafety safety ext.
Proof.
  unfold adjustSafety.
  destruct (verdict_is _ "malicious"); [lia |].
  destruct (verdict_is _ "suspicious"); [lia | reflexivity].
Qed.

(** C4, amended.  Once [apiCheck.done] is true the "Run API check" button
    is disabled (and for safety at most 3 it is not shown), so a click
    there runs nothing and leaves the whole view state as it was.
    [runExternalCheck] itself is not guarded: run again with the same
    reply it leaves the result unchanged. *)
Theorem api_check_is_single_shot_at_the_button :
  forall (getTime : string -> option Z) (st : AppState) (sc : ScanResult)
         (a : ApiCheck),
    scan st = Some sc ->
    apiCheck sc = Some a ->
    done a = true ->
    (forall o, clickApiCheck getTime st o = st)
    /\ (forall o ext,
          realExternalLookup o = Some ext ->
          forall sc',
            scan (runExternalCheck getTime st o) = Some sc' ->
            scan (runExternalCheck getTime (runExternalCheck getTime st o) o) = Some sc').
Proof.
  intros getTime st sc a Hsc Ha Hdone. split.
  - intros o. unfold clickApiCheck, apiControl, apiDone.
    rewrite Hsc, Ha, Hdone, orb_true_r.
    destruct (safety sc <=? 3); reflexivity.
  - intros o ext Hext sc' Hsc'.
    rewrite (runExternalCheck_scan getTime _ sc' o Hsc'), Hext.
    rewrite (runExternalCheck_scan getTime st sc o Hsc), Hext in Hsc'.
    injection Hsc' as <-.
    unfold updatedScan. cbn [id url safety tier color confidence reasons breakdown
                             timestamp likes dislikes userReaction apiCheck].
    rewrite adjustSafety_idempotent. reflexivity.
Qed.

Lemma api_check_is_single_shot_at_the_button_witness :
  (exists sc a, scan checkedState = Some sc /\ apiCheck sc = Some a /\ done a = true)
  /\ clickApiCheck sampleDate checkedState (FetchResolved true (Some malicious_reply))
     = checkedState.
Proof.
  split.
  - eexists. eexists. split; [reflexivity |]. split; reflexivity.
  - refine (proj1 (api_check_is_single_shot_at_the_button sampleDate checkedState
                     (updatedScan midScan clean_reply)
                     (mkApiCheck true (Some "No threats found")
                        [("virustotal", mkSubCheck (Some true) (Some "clean") (Some "0 detections"))]
                        false)
                     eq_refl eq_refl eq_refl) _).
Defined.

(** ** Reaction counters *)

Lemma counters_ok_nonneg r : counters_ok r -> counters_nonneg r.
Proof.
  intros H. reaction_cases; solve_counters;
    match goal with H : Some _ = Some _ |- _ => injection H as <-; lia end.
Qed.

Lemma fresh_ok : counters_ok fresh.
Proof. solve_counters. Qed.

Lemma App_like_ok r : counters_ok r -> counters_ok (App_like r).
Proof. intros H. reaction_cases; solve_counters. Qed.

Lemma App_dislike_ok r : counters_ok r -> counters_ok (App_dislike r).
Proof. intros H. reaction_cases; solve_counters. Qed.

Lemma handleLike_ok r : counters_ok r -> counters_ok (Community.handleLike r).
Proof. intros H. reaction_cases; solve_counters. Qed.

Lemma handleDislike_ok r : counters_ok r -> counters_ok (Community.handleDislike r).
Proof. intros H. reaction_cases; solve_counters. Qed.

Lemma savedLinks_ok r : counters_ok r -> counters_ok (savedLinks r).
Proof. intros H. reaction_cases; solve_counters. Qed.

Lemma loadMerge_ok l : links_ok l -> counters_ok (loadMerge l).
Proof. intros H. reaction_cases; solve_counters. Qed.

Lemma mergeEntry_ok l r : links_ok l -> counters_ok r -> counters_ok (mergeEntry l r None).
Proof. intros Hl Hr. reaction_cases; solve_counters. Qed.

Lemma main_view_step_ok s e :
  main_view_event e = true -> shared_ok s -> shared_ok (step s e).
Proof.
  intros He (Hl & Hh & Ha & Hc).
  destruct e; try discriminate He;
    unfold shared_ok; cbn [step links hist appView communityView links_ok];
    (split; [| split; [| split]]);
    auto using savedLinks_ok, fresh_ok, App_like_ok, App_dislike_ok,
               loadMerge_ok, mergeEntry_ok.
Qed.

(** As long as only the main view acts, whose buttons write the three
    values with one [set], no counter is negative. *)
Lemma main_view_counters_ok events :
  forallb main_view_event events = true -> shared_ok (run events).
Proof.
  unfold run.
  assert (H0 : shared_ok justScanned).
  { unfold shared_ok, justScanned; cbn [links hist appView communityView links_ok].
    auto using fresh_ok. }
  revert H0. generalize justScanned.
  induction events as [| e events IH]; intros s Hs Hall; cbn [fold_left].
  - exact Hs.
  - cbn [forallb] in Hall. apply andb_prop in Hall as [He Hall].
    apply IH; [apply main_view_step_ok; assumption | exact Hall].
Qed.

(** A handler of the community view that runs to its end on an entry
    within the invariant leaves record and entry within it. *)
Lemma community_handler_alone_ok r :
  counters_ok r ->
  counters_ok (Community.handleLike r) /\ counters_ok (Community.handleDislike r).
Proof. intros H. split; [apply handleLike_ok | apply handleDislike_ok]; exact H. Qed.

(** C9.  The code breaks the claim in the community view.  A record is
    liked (likes 1, dislikes 0, reaction like, within the invariant).
    The dislike button is clicked: [handleDislike] writes dislikes = 1,
    then likes = 0, and the listener delivers the record (likes 0,
    dislikes 1, reaction still like) before the third write.  The like
    button is clicked on that entry: [handleLike] takes the like back
    and writes likes = 0 - 1.  The store then holds likes = -1, and the
    view displays -1. *)
Theorem community_clicks_store_negative_likes :
  let liked := run (firstn 5 like_clicked_during_dislike) in
  let halfway := run (firstn 9 like_clicked_during_dislike) in
  let final := run like_clicked_during_dislike in
  hist liked = mkReactions (Some 1) (Some 0) (Some like)
  /\ communityView liked = mkReactions (Some 1) (Some 0) (Some like)
  /\ communityView halfway = mkReactions (Some 0) (Some 1) (Some like)
  /\ Community.handleLike (communityView halfway)
     = mkReactions (Some (-1)) (Some 1) None
  /\ r_likes (hist final) = Some (-1)
  /\ Community.shown (r_likes (communityView final)) = -1
  /\ ~ counters_nonneg (hist final)
  /\ ~ counters_nonneg (communityView final).
Proof.
  cbv zeta. repeat match goal with |- _ /\ _ => split end; try reflexivity.
  - intros [H _]. specialize (H (-1) eq_refl). lia.
  - intros [H _]. specialize (H (-1) eq_refl). lia.
Qed.

(** ** Result ranking *)

Lemma first_nonzero_last d : (if d =? 0 then 0 else d) = d.
Proof. destruct (Z.eqb_spec d 0); congruence. Qed.

Section RankingFacts.

Variable getTime : string -> option Z.
Variables a b : ScanResult.
Variables ta tb : Z.
Hypothesis Hta : getTime (timestamp a) = Some ta.
Hypothesis Htb : getTime (timestamp b) = Some tb.

Lemma sortScans_lex :
  sortScans getTime a b
  = Some (first_nonzero [tierOrder (tier a) - tierOrder (tier b);
                         dislikes_of b - dislikes_of a;
                         tb - ta]).
Proof.
  unfold sortScans, dislikes_of. rewrite Hta, Htb. cbn [num_sub first_nonzero].
  rewrite first_nonzero_last.
  destruct (Z.eqb_spec (tierOrder (tier a)) (tierOrder (tier b)));
    destruct (Z.eqb_spec (tierOrder (tier a) - tierOrder (tier b)) 0); try lia;
    cbn [negb]; [| reflexivity].
  destruct (Z.eqb_spec (JS.nullish (dislikes a) 0) (JS.nullish (dislikes b) 0));
    destruct (Z.eqb_spec (JS.nullish (dislikes b) 0 - JS.nullish (dislikes a) 0) 0);
    try lia; reflexivity.
Qed.

Lemma tierPriority_stored (s : ScanResult) :
  Community.priority_or_0 (Community.tierPriority (Community.tier (stored s)))
  = Some (3 - tierOrder (tier s)).
Proof. destruct s as [? ? ? [] ? ? ? ? ? ? ? ? ?]; reflexivity. Qed.

Lemma Community_sortScans_lex :
  Community.sortScans getTime (stored a) (stored b)
  = Some (first_nonzero [tierOrder (tier a) - tierOrder (tier b);
                         dislikes_of b - dislikes_of a;
                         likes_of b - likes_of a;
                         tb - ta]).
Proof.
  unfold Community.sortScans. rewrite !tierPriority_stored.
  unfold first_nonzero, dislikes_of, likes_of.
  cbn [stored Community.dislikes Community.likes Community.timestamp].
  rewrite Hta, Htb. cbn [num_sub Community.is_not_zero]. rewrite first_nonzero_last.
  replace (3 - tierOrder (tier b) - (3 - tierOrder (tier a)))
    with (tierOrder (tier a) - tierOrder (tier b)) by lia.
  destruct (_ =? 0); cbn [negb]; [| reflexivity].
  destruct (_ =? 0); cbn [negb]; [| reflexivity].
  destruct (_ =? 0); reflexivity.
Qed.

End RankingFacts.

Lemma riskier_tierOrder x y : riskier x y <-> tierOrder x < tierOrder y.
Proof. destruct x, y; cbn; intuition lia. Qed.

Lemma tierOrder_inj x y : tierOrder x = tierOrder y <-> x = y.
Proof. destruct x, y; cbn; intuition (try discriminate; try lia). Qed.

(** With an unreadable timestamp the fallback of [sortScans] is [NaN]. *)
Lemma sortScans_unparsed getTime a b :
  tier a = tier b -> dislikes_of a = dislikes_of b ->
  getTime (timestamp a) = None \/ getTime (timestamp b) = None ->
  sortScans getTime a b = None.
Proof.
  unfold sortScans, dislikes_of. intros -> -> H.
  rewrite !Z.eqb_refl. cbn [negb].
  destruct H as [-> | ->]; [destruct (getTime (timestamp b)) |]; reflexivity.
Qed.

(** C7, as stated, fails: the comparators leave ties.  [midScan] and
    [twinScan] are different results of the same tier, dislikes, likes
    and timestamp; both comparators return 0 on them in either order, so
    neither defines a total order, and the place of the two in the sorted
    list is the one they had before sorting. *)
Lemma ranking_leaves_ties :
  midScan <> twinScan
  /\ sortScans sampleDate midScan twinScan = Some 0
  /\ sortScans sampleDate twinScan midScan = Some 0
  /\ Community.sortScans sampleDate (stored midScan) (stored twinScan) = Some 0
  /\ Community.sortScans sampleDate (stored twinScan) (stored midScan) = Some 0
  /\ Array_sort (sortScans sampleDate) [midScan; twinScan] = [midScan; twinScan]
  /\ Array_sort (sortScans sampleDate) [twinScan; midScan] = [twinScan; midScan].
Proof.
  split; [intros H; apply (f_equal id) in H; vm_compute in H; discriminate H |].
  repeat split; vm_compute; reflexivity.
Qed.

(** C7, amended.  On results whose timestamps the platform parses, both
    comparators are lexicographic with the riskiest first: the primary
    view ranks by tier (High Risk before Be Careful before Safe), then
    dislikes descending, then timestamp descending; the community view
    by tier, then dislikes descending, then likes descending, then
    timestamp descending.  Each returns 0 exactly when all its keys are
    equal, is antisymmetric in sign, and its "not after" relation is
    transitive: a total preorder, in which results equal on every key
    remain tied. *)
Theorem ranking_comparators_are_lexicographic :
  forall (getTime : string -> option Z) (a b c : ScanResult) (ta tb tc : Z),
    getTime (timestamp a) = Some ta ->
    getTime (timestamp b) = Some tb ->
    getTime (timestamp c) = Some tc ->
    (exists d,
       sortScans getTime a b = Some d
       /\ sortScans getTime b a = Some (- d)
       /\ (d < 0 <-> primary_before ta tb a b)
       /\ (0 < d <-> primary_before tb ta b a)
       /\ (d = 0 <-> primary_tie ta tb a b))
    /\ (goes_after (sortScans getTime a b) = false ->
        goes_after (sortScans getTime b c) = false ->
        goes_after (sortScans getTime a c) = false)
    /\ (exists d,
          Community.sortScans getTime (stored a) (stored b) = Some d
          /\ Community.sortScans getTime (stored b) (stored a) = Some (- d)
          /\ (d < 0 <-> community_before ta tb a b)
          /\ (0 < d <-> community_before tb ta b a)
          /\ (d = 0 <-> community_tie ta tb a b))
    /\ (goes_after (Community.sortScans getTime (stored a) (stored b)) = false ->
        goes_after (Community.sortScans getTime (stored b) (stored c)) = false ->
        goes_after (Community.sortScans getTime (stored a) (stored c)) = false).
Proof.
  intros getTime a b c ta tb tc Ha Hb Hc.
  rewrite (sortScans_lex getTime a b ta tb Ha Hb),
          (sortScans_lex getTime b a tb ta Hb Ha),
          (sortScans_lex getTime b c tb tc Hb Hc),
          (sortScans_lex getTime a c ta tc Ha Hc),
          (Community_sortScans_lex getTime a b ta tb Ha Hb),
          (Community_sortScans_lex getTime b a tb ta Hb Ha),
          (Community_sortScans_lex getTime b c tb tc Hb Hc),
          (Community_sortScans_lex getTime a c ta tc Ha Hc).
  unfold primary_before, primary_tie, community_before, community_tie, goes_after.
  setoid_rewrite riskier_tierOrder.
  setoid_rewrite <- tierOrder_inj.
  generalize (tierOrder (tier a)) (tierOrder (tier b)) (tierOrder (tier c))
             (dislikes_of a) (dislikes_of b) (dislikes_of c)
             (likes_of a) (likes_of b) (likes_of c).
  intros ra rb rc da db dc la lb lc.
  split; [| split; [| split]].
  - eexists. split; [reflexivity |]. first_nonzero_cases; repeat split; intros; try f_equal; lia.
  - rewrite !Z.ltb_ge. first_nonzero_cases; intros; lia.
  - eexists. split; [reflexivity |]. first_nonzero_cases; repeat split; intros; try f_equal; lia.
  - rewrite !Z.ltb_ge. first_nonzero_cases; intros; lia.
Qed.

Lemma ranking_comparators_are_lexicographic_witness :
  sampleDate (timestamp safeScan) = Some 1704153600000
  /\ sampleDate (timestamp riskyScan) = Some 1704240000000
  /\ sampleDate (timestamp midScan) = Some 1704067200000
  /\ exists d, sortScans sampleDate safeScan riskyScan = Some d
               /\ (0 < d <-> primary_before 1704240000000 1704153600000 riskyScan safeScan).
Proof.
  split; [reflexivity |]. split; [reflexivity |]. split; [reflexivity |].
  destruct (ranking_comparators_are_lexicographic sampleDate safeScan riskyScan midScan
              1704153600000 1704240000000 1704067200000 eq_refl eq_refl eq_refl)
    as ((d & Hd & _ & _ & Hpos & _) & _).
  exists d. split; assumption.
Defined.

(** *** Sorting with the comparators *)

Section SortFacts.

Context {A : Type}.
Variable cmp : A -> A -> option Z.

Lemma sort_insert_perm x l : Permutation (sort_insert cmp x l) (x :: l).
Proof.
  induction l as [| y l IH]; cbn.
  - apply Permutation_refl.
  - destruct (goes_after (cmp x y)).
    + apply perm_trans with (y :: x :: l).
      * apply perm_skip, IH.
      * apply perm_swap.
    + apply Permutation_refl.
Qed.

(** Sorting rearranges the list and nothing else. *)
Lemma Array_sort_perm l : Permutation (Array_sort cmp l) l.
Proof.
  induction l as [| x l IH]; cbn.
  - apply perm_nil.
  - apply perm_trans with (x :: Array_sort cmp l).
    + apply sort_insert_perm.
    + apply perm_skip, IH.
Qed.

Lemma Array_sort_Forall (P : A -> Prop) l : Forall P l -> Forall P (Array_sort cmp l).
Proof.
  intros H. rewrite Forall_forall in *. intros x Hx. apply H.
  apply Permutation_in with (Array_sort cmp l); [apply Array_sort_perm | exact Hx].
Qed.

(** On elements where the comparator is consistent (of two elements
    one is not after the other), the sorted list is in order. *)
Variable good : A -> Prop.
Hypothesis cmp_total :
  forall x y, good x -> good y -> goes_after (cmp x y) = true -> not_after cmp y x.

Lemma sort_insert_sorted x l :
  good x -> Forall good l ->
  Sorted (not_after cmp) l -> Sorted (not_after cmp) (sort_insert cmp x l).
Proof.
  intros Hx Hl Hs. induction l as [| y l IH]; cbn.
  - repeat constructor.
  - destruct (goes_after (cmp x y)) eqn:E.
    + apply Forall_inv in Hl as Hy. apply Forall_inv_tail in Hl.
      apply Sorted_inv in Hs as [Hs Hhd].
      constructor; [apply IH; assumption |].
      destruct l as [| z l]; cbn.
      * constructor. apply cmp_total; assumption.
      * destruct (goes_after (cmp x z)).
        -- constructor. inversion Hhd; assumption.
        -- constructor. apply cmp_total; assumption.
    + constructor; [exact Hs | constructor; exact E].
Qed.

Lemma Array_sort_sorted l :
  Forall good l -> Sorted (not_after cmp) (Array_sort cmp l).
Proof.
  induction l as [| x l IH]; intros Hl; cbn.
  - constructor.
  - apply sort_insert_sorted.
    + apply Forall_inv in Hl. exact Hl.
    + apply Array_sort_Forall. apply Forall_inv_tail in Hl. exact Hl.
    + apply IH. apply Forall_inv_tail in Hl. exact Hl.
Qed.

End SortFacts.

(** Sorted with [sortScans], a history whose timestamps parse is in
    ranking order: no entry is followed by one that ranks before it. *)
Lemma history_sorted_by_sortScans getTime (l : list ScanResult) :
  Forall (fun s => exists t, getTime (timestamp s) = Some t) l ->
  Sorted (not_after (sortScans getTime)) (Array_sort (sortScans getTime) l).
Proof.
  apply Array_sort_sorted.
  intros x y [tx Hx] [ty Hy]. unfold not_after, goes_after.
  rewrite (sortScans_lex getTime x y tx ty Hx Hy),
          (sortScans_lex getTime y x ty tx Hy Hx).
  rewrite Z.ltb_lt, Z.ltb_ge.
  first_nonzero_cases; lia.
Qed.

(** Three results of the three tiers come out riskiest first, whatever
    their order before sorting. *)
Example ranking_three_tiers :
  Array_sort (sortScans sampleDate) [safeScan; riskyScan; midScan]
  = [riskyScan; midScan; safeScan]
  /\ Array_sort (Community.sortScans sampleDate) (map stored [safeScan; riskyScan; midScan])
     = map stored [riskyScan; midScan; safeScan].
Proof. split; vm_compute; reflexivity. Qed.

(** The reaction buttons of the main view keep every entry of the
    history within the counter invariant. *)
Lemma setReactions_keeps_counters getTime st h r :
  Forall (fun s => counters_ok (reactions_of s)) (history st) ->
  counters_ok r ->
  Forall (fun s => counters_ok (reactions_of s)) (history (setReactions getTime st h r)).
Proof.
  intros Hall Hr. unfold setReactions. cbn [history].
  apply Array_sort_Forall. rewrite Forall_forall in *.
  intros s Hs. apply in_map_iff in Hs as (s0 & <- & Hs0).
  destruct (String.eqb (id s0) (id h)).
  - destruct r; exact Hr.
  - apply Hall, Hs0.
Qed.

Lemma likeClick_keeps_counters getTime st h :
  Forall (fun s => counters_ok (reactions_of s)) (history st) ->
  In h (history st) ->
  Forall (fun s => counters_ok (reactions_of s)) (history (likeClick getTime st h))
  /\ Forall (fun s => counters_ok (reactions_of s)) (history (dislikeClick getTime st h)).
Proof.
  intros Hall Hin.
  assert (Hh : counters_ok (reactions_of h)).
  { rewrite Forall_forall in Hall. apply Hall, Hin. }
  split; apply setReactions_keeps_counters;
    auto using App_like_ok, App_dislike_ok.
Qed.

(** Every result of [scoreUrl] starts with both counters at 0 and no
    reaction. *)
Lemma reactions_of_scoreUrl URL raw newId now :
  reactions_of (scoreUrl URL raw newId now) = fresh.
Proof. reflexivity. Qed.

(** * Further properties *)

(** ** The scoring engine, check by check *)

(** [scoreUrl] is determined by the outcome of its seven checks. *)
Lemma scoreUrl_by_signals URL raw newId now :
  breakdown (scoreUrl URL raw newId now) = breakdown_of (signals URL raw)
  /\ safety (scoreUrl URL raw newId now) = safety_of (signals URL raw)
  /\ reasons (scoreUrl URL raw newId now)
     = reasons_of (breakdown_of (signals URL raw)) (safety_of (signals URL raw)).
Proof.
  unfold scoreUrl, signals. cbv zeta.
  generalize (JS.startsWith raw "https://"
              || JS.test_i known_safe_domains (JS.toLowerCase (host (parseHost URL raw)))
                 && negb (JS.startsWith raw "http://"))%bool.
  generalize (mockHasValidSsl raw).
  generalize (negb (mockIsBlacklisted (host (parseHost URL raw)))).
  generalize (isShortAndClean (host (parseHost URL raw))).
  generalize (negb (hasUrgentKeywords (JS.toLowerCase (host (parseHost URL raw)))
                    || hasUrgentKeywords (JS.toLowerCase raw))).
  generalize (180 <? mockDomainAgeDays (host (parseHost URL raw))).
  generalize (negb (mockHasExcessiveRedirects URL raw)).
  intros c7 c6 c5 c4 c3 c2 c1.
  destruct c1, c2, c3, c4, c5, c6, c7; repeat split; reflexivity.
Qed.

(** X1.  The reasons of a result are never empty, and the fallback
    message of line 269 is never among them: whenever no caution applies
    the score is above 6, and then some confirmation applies. *)
Theorem reasons_never_empty_and_fallback_unused :
  forall (URL : string -> option Location) (raw newId now : string),
    reasons (scoreUrl URL raw newId now) <> []
    /\ ~ In fallback_reason (reasons (scoreUrl URL raw newId now)).
Proof.
  intros URL raw newId now.
  destruct (scoreUrl_by_signals URL raw newId now) as (_ & _ & ->).
  generalize (signals URL raw). intros g.
  all_signals g; vm_compute; split; try discriminate; intuition discriminate.
Qed.

(** X2.  The reasons are never mixed: a result with safety at most 6
    lists cautions only, a result with safety above 6 lists confirmations
    only. *)
Theorem reasons_are_cautions_or_confirmations :
  forall (URL : string -> option Location) (raw newId now : string),
    let r := scoreUrl URL raw newId now in
    (safety r <= 6 -> all_cautions (reasons r) = true)
    /\ (6 < safety r -> all_confirmations (reasons r) = true).
Proof.
  intros URL raw newId now r. subst r.
  destruct (scoreUrl_by_signals URL raw newId now) as (_ & -> & ->).
  generalize (signals URL raw). intros g.
  all_signals g; vm_compute; split; intros H; try reflexivity;
    try discriminate H; exfalso; apply H; reflexivity.
Qed.

(** *** Facts about the string primitives *)

Lemma prefix_cons a b s1 s2 :
  String.prefix (String a s1) (String b s2) = Ascii.eqb a b && String.prefix s1 s2.
Proof.
  cbn. destruct (ascii_dec a b) as [-> | Hn].
  - rewrite Ascii.eqb_refl. reflexivity.
  - apply Ascii.eqb_neq in Hn. rewrite Hn. reflexivity.
Qed.

Lemma prefix_nil_l s : String.prefix EmptyString s = true.
Proof. destruct s; reflexivity. Qed.

Lemma prefix_app p s : String.prefix p (p ++ s) = true.
Proof.
  induction p as [| c p IH]; [apply prefix_nil_l |].
  cbn [append]. rewrite prefix_cons, Ascii.eqb_refl. exact IH.
Qed.

Lemma includes_of_prefix s x : String.prefix x s = true -> JS.includes s x = true.
Proof. intros H. destruct s; cbn [JS.includes]; rewrite H; reflexivity. Qed.

Lemma includes_app_l a s x : JS.includes s x = true -> JS.includes (a ++ s) x = true.
Proof.
  intros H. induction a as [| c a IH]; [exact H |].
  cbn [append JS.includes]. rewrite IH. apply orb_true_r.
Qed.

Lemma includes_middle a x b : JS.includes (a ++ x ++ b) x = true.
Proof. apply includes_app_l, includes_of_prefix, prefix_app. Qed.


Lemma toLowerCase_app a b : JS.toLowerCase (a ++ b) = JS.toLowerCase a ++ JS.toLowerCase b.
Proof. induction a as [| c a IH]; cbn; [| rewrite IH]; reflexivity. Qed.

Lemma lower_ascii_idempotent c : JS.lower_ascii (JS.lower_ascii c) = JS.lower_ascii c.
Proof. destruct c as [[] [] [] [] [] [] [] []]; reflexivity. Qed.

Lemma toLowerCase_idempotent s : JS.toLowerCase (JS.toLowerCase s) = JS.toLowerCase s.
Proof.
  induction s as [| c s IH]; cbn; [reflexivity |].
  rewrite lower_ascii_idempotent, IH. reflexivity.
Qed.

Lemma test_i_middle lits pre d suf :
  In d lits -> JS.test_i lits (pre ++ d ++ suf) = true.
Proof.
  intros Hd. unfold JS.test_i. apply existsb_exists. exists d. split; [exact Hd |].
  rewrite !toLowerCase_app. apply includes_middle.
Qed.

Lemma test_i_lower lits s : JS.test_i lits (JS.toLowerCase s) = JS.test_i lits s.
Proof. unfold JS.test_i. rewrite toLowerCase_idempotent. reflexivity. Qed.

Lemma http_is_not_https raw :
  JS.startsWith raw "http://" = true -> JS.startsWith raw "https://" = false.
Proof.
  unfold JS.startsWith.
  destruct raw as [| c1 [| c2 [| c3 [| c4 [| c5 rest]]]]]; try discriminate;
    rewrite !prefix_cons; intros H;
    repeat (apply andb_prop in H as [? H]);
    repeat match goal with
      | E : Ascii.eqb _ _ = true |- _ => apply Ascii.eqb_eq in E; subst
      end;
    reflexivity.
Qed.

Lemma split_head_slice_from c s : JS.split_head c s ++ JS.slice_from c s = s.
Proof.
  induction s as [| d s IH]; cbn; [reflexivity |].
  destruct (Ascii.eqb c d); cbn; [reflexivity | rewrite IH; reflexivity].
Qed.

Lemma includes_char s c :
  JS.includes s (String c EmptyString) = false -> JS.slice_from c s = EmptyString.
Proof.
  induction s as [| d s IH]; cbn [JS.includes JS.slice_from]; [reflexivity |].
  rewrite prefix_cons, prefix_nil_l, andb_true_r.
  intros H. apply orb_false_elim in H as [Hc Hs].
  rewrite Hc. apply IH, Hs.
Qed.

Lemma split_head_has_no_separator c s :
  JS.includes (JS.split_head c s) (String c EmptyString) = false.
Proof.
  induction s as [| d s IH]; cbn [JS.split_head]; [reflexivity |].
  destruct (Ascii.eqb c d) eqn:E; [reflexivity |].
  cbn [JS.includes]. rewrite prefix_cons, E, IH. reflexivity.
Qed.

(** *** What single checks imply for the result *)

Lemma plaintext_signals URL raw :
  JS.startsWith raw "http://" = true ->
  sig_https (signals URL raw) = false /\ sig_ssl (signals URL raw) = false.
Proof.
  intros H. unfold signals. cbn [sig_https sig_ssl]. unfold mockHasValidSsl.
  rewrite (http_is_not_https raw H), H. cbn [negb]. rewrite andb_false_r.
  split; [reflexivity |]. destruct (JS.test _ raw); reflexivity.
Qed.

(** X3.  An address typed with the plaintext scheme http:// earns neither
    the HTTPS nor the SSL points, whatever its host: its safety is at
    most 6, it is never classified Safe, and its reasons hold the
    missing-HTTPS and the SSL cautions. *)
Theorem plaintext_address_is_never_safe :
  forall (URL : string -> option Location) (raw newId now : string),
    JS.startsWith raw "http://" = true ->
    let r := scoreUrl URL raw newId now in
    lookup (breakdown r) "https" = Some 0
    /\ lookup (breakdown r) "ssl" = Some 0
    /\ safety r <= 6
    /\ tier r <> Safe
    /\ In caution_https (reasons r)
    /\ In caution_ssl (reasons r).
Proof.
  intros URL raw newId now Hhttp r. subst r.
  rewrite tier_of_scoreUrl.
  destruct (scoreUrl_by_signals URL raw newId now) as (-> & -> & ->).
  destruct (plaintext_signals URL raw Hhttp) as [H1 H2].
  destruct (signals URL raw) as [h s b c k a r]. cbn in H1, H2. subst h s.
  destruct b, c, k, a, r; vm_compute; repeat split; try discriminate; auto 10.
Qed.

Lemma plaintext_address_is_never_safe_witness :
  JS.startsWith "http://www.google.com/" "http://" = true
  /\ safety (scoreUrl sampleURL "http://www.google.com/" "id-5" "1/1/2024, 12:00:00 AM") <= 6.
Proof.
  split; [reflexivity |].
  destruct (plaintext_address_is_never_safe sampleURL "http://www.google.com/"
              "id-5" "1/1/2024, 12:00:00 AM" eq_refl) as (_ & _ & H & _).
  exact H.
Defined.

(** X4.  A host the blacklist heuristic matches loses two points instead
    of earning two: the result has safety at most 6, is never classified
    Safe, and lists the blacklist caution first. *)
Theorem blacklisted_host_is_never_safe :
  forall (URL : string -> option Location) (raw newId now : string),
    mockIsBlacklisted (host (parseHost URL raw)) = true ->
    let r := scoreUrl URL raw newId now in
    lookup (breakdown r) "blacklisted" = Some (-2)
    /\ safety r <= 6
    /\ tier r <> Safe
    /\ hd_error (reasons r) = Some caution_blacklist.
Proof.
  intros URL raw newId now Hbl r. subst r.
  rewrite tier_of_scoreUrl.
  destruct (scoreUrl_by_signals URL raw newId now) as (-> & -> & ->).
  assert (Hb : sig_notBlacklisted (signals URL raw) = false).
  { unfold signals. cbn [sig_notBlacklisted]. rewrite Hbl. reflexivity. }
  destruct (signals URL raw) as [h s b c k a r]. cbn in Hb. subst b.
  destruct h, s, c, k, a, r; vm_compute; repeat split; try discriminate.
Qed.

Lemma blacklisted_host_is_never_safe_witness :
  mockIsBlacklisted (host (parseHost sampleURL "https://phish.example.com/")) = true
  /\ tier (scoreUrl sampleURL "https://phish.example.com/" "id-6" "1/1/2024, 12:00:00 AM")
     <> Safe.
Proof.
  split; [reflexivity |].
  destruct (blacklisted_host_is_never_safe sampleURL "https://phish.example.com/"
              "id-6" "1/1/2024, 12:00:00 AM" eq_refl) as (_ & _ & H & _).
  exact H.
Defined.

(** X5.  The sum of the positive entries of the breakdown, from which
    the confidence is computed, lies between 0 and 10 and is never below
    the safety; safety is 10 exactly when that sum is 10, which is
    exactly when the confidence is 1 (the quotient 10 / 10). *)
Theorem safety_is_bounded_by_positive_score :
  forall (URL : string -> option Location) (raw newId now : string),
    let r := scoreUrl URL raw newId now in
    let positiveScore := positiveScoreOf (breakdown r) in
    0 <= positiveScore <= 10
    /\ safety r <= positiveScore
    /\ (safety r = 10 <-> positiveScore = 10)
    /\ (positiveScore = 10 <-> (confidence r == 1)%Q).
Proof.
  intros URL raw newId now r positiveScore. subst positiveScore r.
  destruct (scoreUrl_shape URL raw newId now)
    as (h & s & b & c & k & a & r & Hbd & Hsafety & Hconf).
  rewrite Hbd, Hsafety, Hconf.
  destruct h, s, b, c, k, a, r; vm_compute;
    repeat split; intros; try reflexivity; discriminate.
Qed.

(** X6.  The known-safe treatment goes by substring: a host that merely
    contains google.com, apple.com, microsoft.com or amazon.com anywhere
    earns the clean-domain and the domain-age point, and the HTTPS points
    too unless the input starts with http://. *)
Theorem known_safe_match_is_by_substring :
  forall (URL : string -> option Location) (raw newId now pre d suf : string),
    In d known_safe_domains ->
    host (parseHost URL raw) = pre ++ d ++ suf ->
    let bd := breakdown (scoreUrl URL raw newId now) in
    isShortAndClean (pre ++ d ++ suf) = true
    /\ mockDomainAgeDays (pre ++ d ++ suf) = 3650
    /\ lookup bd "cleanDomain" = Some 1
    /\ lookup bd "domainAge" = Some 1
    /\ (JS.startsWith raw "http://" = false -> lookup bd "https" = Some 2).
Proof.
  intros URL raw newId now pre d suf Hd Hhost bd. subst bd.
  destruct (scoreUrl_by_signals URL raw newId now) as (-> & _).
  assert (Hk : JS.test_i known_safe_domains (pre ++ d ++ suf) = true)
    by (apply test_i_middle, Hd).
  assert (Hclean : isShortAndClean (pre ++ d ++ suf) = true)
    by (unfold isShortAndClean; rewrite Hk; reflexivity).
  assert (Hage : mockDomainAgeDays (pre ++ d ++ suf) = 3650)
    by (unfold mockDomainAgeDays; rewrite Hk; reflexivity).
  split; [exact Hclean |]. split; [exact Hage |].
  unfold signals, breakdown_of. rewrite Hhost, Hclean, Hage, test_i_lower, Hk.
  cbn [sig_https sig_clean sig_established lookup String.eqb Ascii.eqb Bool.eqb pts].
  repeat split.
  intros ->. rewrite orb_true_r. reflexivity.
Qed.

Lemma known_safe_match_is_by_substring_witness :
  In "google.com" known_safe_domains
  /\ host (parseHost sampleURL "https://evil-google.com.attacker.net/")
     = "evil-" ++ "google.com" ++ ".attacker.net"
  /\ lookup (breakdown (scoreUrl sampleURL "https://evil-google.com.attacker.net/"
                          "id-7" "1/1/2024, 12:00:00 AM")) "domainAge" = Some 1.
Proof.
  split; [left; reflexivity |]. split; [reflexivity |].
  destruct (known_safe_match_is_by_substring sampleURL
              "https://evil-google.com.attacker.net/" "id-7" "1/1/2024, 12:00:00 AM"
              "evil-" "google.com" ".attacker.net" (or_introl eq_refl) eq_refl)
    as (_ & _ & _ & H & _).
  exact H.
Defined.

(** X7.  The mocked domain age is always between 10 and 3650 days. *)
Theorem domain_age_is_bounded :
  forall host : string, 10 <= mockDomainAgeDays host <= 3650.
Proof.
  intros host. unfold mockDomainAgeDays, JS.length.
  destruct (JS.test_i _ _); [lia |].
  destruct (_ || _)%bool; [lia |].
  destruct (_ || _)%bool; lia.
Qed.

(** X8.  For a host without any of the age markers (no known-safe name,
    no new-, recent, young, old- or established), the domain-age point is
    decided by the length of the host alone: it is earned exactly by
    hosts of 10 characters or more. *)
Theorem plain_host_is_established_by_length :
  forall host : string,
    JS.test_i known_safe_domains host = false ->
    JS.includes host "new-" || JS.includes host "recent" || JS.includes host "young" = false ->
    JS.includes host "old-" || JS.includes host "established" = false ->
    (180 <? mockDomainAgeDays host) = (10 <=? JS.length host).
Proof.
  intros host Hk Hnew Hold. unfold mockDomainAgeDays. rewrite Hk, Hnew, Hold.
  unfold JS.length.
  destruct (Z.ltb_spec 180 (Z.min (365 * 3) (Z.max 10 (Z.of_nat (String.length host) * 20))));
    destruct (Z.leb_spec 10 (Z.of_nat (String.length host))); try reflexivity; lia.
Qed.

Lemma plain_host_is_established_by_length_witness :
  JS.test_i known_safe_domains "short.io" = false
  /\ JS.includes "short.io" "new-" || JS.includes "short.io" "recent"
     || JS.includes "short.io" "young" = false
  /\ JS.includes "short.io" "old-" || JS.includes "short.io" "established" = false
  /\ (180 <? mockDomainAgeDays "short.io") = false.
Proof.
  split; [reflexivity |]. split; [reflexivity |]. split; [reflexivity |].
  rewrite (plain_host_is_established_by_length "short.io" eq_refl eq_refl eq_refl).
  reflexivity.
Defined.

(** X9.  When the address parser rejects the input, [parseHost] splits it
    at the first slash and loses nothing: host followed by path is the
    input again, and the host holds no slash. *)
Theorem parseHost_fallback_splits_at_first_slash :
  forall (URL : string -> option Location) (raw : string),
    URL (if JS.startsWith raw "http" then raw else "https://" ++ raw) = None ->
    host (parseHost URL raw) ++ path (parseHost URL raw) = raw
    /\ JS.includes (host (parseHost URL raw)) "/" = false.
Proof.
  intros URL raw Hnone. unfold parseHost. rewrite Hnone. cbn [host path]. split.
  - destruct (JS.includes raw "/") eqn:E.
    + apply split_head_slice_from.
    + rewrite <- (split_head_slice_from "/" raw) at 2.
      rewrite (includes_char raw "/" E). reflexivity.
  - apply split_head_has_no_separator.
Qed.

Lemma parseHost_fallback_splits_at_first_slash_witness :
  sampleURL (if JS.startsWith "my site.com/a b/c" "http" then "my site.com/a b/c"
             else "https://" ++ "my site.com/a b/c") = None
  /\ host (parseHost sampleURL "my site.com/a b/c")
     ++ path (parseHost sampleURL "my site.com/a b/c") = "my site.com/a b/c".
Proof.
  split; [reflexivity |].
  exact (proj1 (parseHost_fallback_splits_at_first_slash sampleURL "my site.com/a b/c" eq_refl)).
Defined.

(** ** Tier and colour *)

(** X10.  The tier never improves as safety drops: a lower safety gives
    a tier at least as severe. *)
Theorem tierOf_is_monotone :
  forall s1 s2 : Z,
    s1 <= s2 ->
    tierOrder (tierOf s1) <= tierOrder (tierOf s2)
    /\ tierOrder (finalTierOf s1) <= tierOrder (finalTierOf s2).
Proof.
  intros s1 s2 H. unfold tierOf, finalTierOf.
  destruct (Z.leb_spec s1 3), (Z.leb_spec s2 3), (Z.leb_spec s1 6), (Z.leb_spec s2 6);
    cbn; lia.
Qed.

Lemma tierOf_is_monotone_witness :
  2 <= 7 /\ tierOrder (tierOf 2) <= tierOrder (tierOf 7).
Proof.
  split; [lia |]. exact (proj1 (tierOf_is_monotone 2 7 ltac:(lia))).
Defined.

Lemma colorOf_tier s : colorOf s = tierColor (tierOf s).
Proof. unfold colorOf, tierOf. destruct (s <=? 3), (s <=? 6); reflexivity. Qed.

Lemma finalColorOf_tier s : finalColorOf s = tierColor (finalTierOf s).
Proof. unfold finalColorOf, finalTierOf. destruct (s <=? 3), (s <=? 6); reflexivity. Qed.

(** X11.  Tier and colour always go together: in every result of
    [scoreUrl], and in the result displayed after [runExternalCheck] has
    reconciled a reply (whatever tier and colour the result had before),
    the colour is the one of the tier and the tier is the one of the
    safety. *)
Theorem tier_and_color_stay_consistent :
  forall (getTime : string -> option Z) (URL : string -> option Location)
         (raw newId now : string) (st : AppState) (sc : ScanResult)
         (o : FetchOutcome) (ext : ExtResponse),
    scan st = Some sc ->
    realExternalLookup o = Some ext ->
    (let r := scoreUrl URL raw newId now in
     tier r = tierOf (safety r) /\ color r = tierColor (tier r))
    /\ exists sc',
         scan (runExternalCheck getTime st o) = Some sc'
         /\ tier sc' = tierOf (safety sc')
         /\ color sc' = tierColor (tier sc').
Proof.
  intros getTime URL raw newId now st sc o ext Hsc Hext. split.
  - split; [reflexivity |].
    change (color (scoreUrl URL raw newId now))
      with (colorOf (safety (scoreUrl URL raw newId now))).
    rewrite tier_of_scoreUrl. apply colorOf_tier.
  - rewrite (runExternalCheck_scan getTime st sc o Hsc), Hext.
    eexists. split; [reflexivity |]. split; [reflexivity |].
    cbn [color tier updatedScan]. apply finalColorOf_tier.
Qed.

Lemma tier_and_color_stay_consistent_witness :
  scan midState = Some midScan
  /\ realExternalLookup (FetchResolved true (Some malicious_reply)) = Some malicious_reply
  /\ exists sc',
       scan (runExternalCheck sampleDate midState (FetchResolved true (Some malicious_reply)))
       = Some sc'
       /\ color sc' = tierColor (tier sc').
Proof.
  split; [reflexivity |]. split; [reflexivity |].
  destruct (tier_and_color_stay_consistent sampleDate sampleURL "example.com" "id-8"
              "1/1/2024, 12:00:00 AM" midState midScan
              (FetchResolved true (Some malicious_reply)) malicious_reply eq_refl eq_refl)
    as (_ & sc' & Hscan & _ & Hcolor).
  exists sc'. split; assumption.
Defined.

(** ** The reconciler's other effects *)

Lemma In_firstn_In {A} (n : nat) (l : list A) x : In x (firstn n l) -> In x l.
Proof.
  revert l. induction n as [| n IH]; intros [| y l]; cbn; try tauto.
  intros [-> | H]; [left; reflexivity | right; apply IH, H].
Qed.

Lemma length_firstn_le {A} (n : nat) (l : list A) :
  (List.length (firstn n l) <= n)%nat /\ (List.length (firstn n l) <= List.length l)%nat.
Proof.
  revert l. induction n as [| n IH]; intros [| y l]; cbn; try lia.
  destruct (IH l). lia.
Qed.

(** X12.  [runExternalCheck] never lengthens the history: after a reply
    it holds at most five entries and no more than before, each of them
    either the reconciled result or a former entry with another id; when
    the lookup fails the history is left as it was. *)
Theorem runExternalCheck_history :
  forall (getTime : string -> option Z) (st : AppState) (sc : ScanResult)
         (o : FetchOutcome),
    scan st = Some sc ->
    (realExternalLookup o = None ->
     history (runExternalCheck getTime st o) = history st)
    /\ (forall ext,
          realExternalLookup o = Some ext ->
          (List.length (history (runExternalCheck getTime st o)) <= 5)%nat
          /\ (List.length (history (runExternalCheck getTime st o)) <= List.length (history st))%nat
          /\ forall s,
               In s (history (runExternalCheck getTime st o)) ->
               s = updatedScan sc ext
               \/ (In s (history st) /\ String.eqb (id s) (id sc) = false)).
Proof.
  intros getTime st sc o Hsc. unfold runExternalCheck. rewrite Hsc. split.
  - intros ->. reflexivity.
  - intros ext ->. cbn [history].
    set (upd := map _ (history st)).
    assert (Hlen : List.length (Array_sort (sortScans getTime) upd) = List.length (history st)).
    { rewrite (Permutation_length (Array_sort_perm (sortScans getTime) upd)).
      unfold upd. apply length_map. }
    destruct (length_firstn_le 5 (Array_sort (sortScans getTime) upd)) as [H5 Hl].
    split; [exact H5 |]. split; [lia |].
    intros s Hs. apply In_firstn_In in Hs.
    apply (Permutation_in _ (Array_sort_perm (sortScans getTime) upd)) in Hs.
    unfold upd in Hs. apply in_map_iff in Hs as (s0 & Hs0 & Hin).
    destruct (String.eqb (id s0) (id sc)) eqn:E.
    + left. symmetry. exact Hs0.
    + right. subst s. split; assumption.
Qed.

Lemma runExternalCheck_history_witness :
  scan midState = Some midScan
  /\ (List.length (history (runExternalCheck sampleDate midState
                         (FetchResolved true (Some clean_reply)))) <= 5)%nat.
Proof.
  split; [reflexivity |].
  destruct (runExternalCheck_history sampleDate midState midScan
              (FetchResolved true (Some clean_reply)) eq_refl) as (_ & H).
  destruct (H clean_reply eq_refl) as (H5 & _). exact H5.
Defined.

(** X13.  How a reply's sub-checks decide [apiCheck.failed]: a reply
    without a [checks] field is not failed; a reply with an empty
    [checks] object is failed, and its summary is replaced by the failure
    note; one sub-check that neither has [checked: false] nor status
    error is enough for the reply not to be failed, and then note and
    checks are the reply's own. *)
Theorem apiCheck_failed_by_subchecks :
  forall (sc : ScanResult) (ext : ExtResponse),
    exists a,
      apiCheck (updatedScan sc ext) = Some a
      /\ done a = true
      /\ (ext_checks ext = None ->
          failed a = false /\ note a = summary ext /\ checks a = [])
      /\ (ext_checks ext = Some [] ->
          failed a = true /\ note a = Some "External API scan failed")
      /\ (forall cs key c,
            ext_checks ext = Some cs -> In (key, c) cs -> subcheck_failed c = false ->
            failed a = false /\ note a = summary ext /\ checks a = cs).
Proof.
  intros sc ext. unfold updatedScan. cbn [apiCheck]. eexists. split; [reflexivity |].
  cbn [done failed note checks]. split; [reflexivity |]. split; [| split].
  - intros ->. cbn. repeat split.
  - intros ->. cbn. repeat split.
  - intros cs key c -> Hin Hc.
    assert (Hall : didAllApisFail (Some cs) = false).
    { cbn [didAllApisFail]. apply not_true_is_false. intros Hall.
      rewrite forallb_forall in Hall. specialize (Hall (key, c) Hin).
      cbn [snd] in Hall. congruence. }
    rewrite Hall. repeat split.
Qed.

(** ** The sorted history *)

Section SortedByKey.

Context {A : Type}.
Variable cmp : A -> A -> option Z.
Variable key : A -> Z.
Hypothesis after_key : forall x y, goes_after (cmp x y) = true -> key y <= key x.
Hypothesis not_after_key : forall x y, goes_after (cmp x y) = false -> key x <= key y.

Lemma sort_insert_by_key x l :
  StronglySorted (fun a b => key a <= key b) l ->
  StronglySorted (fun a b => key a <= key b) (sort_insert cmp x l).
Proof.
  induction l as [| y l IH]; cbn [sort_insert]; intros Hs.
  - repeat constructor.
  - apply StronglySorted_inv in Hs as [Hs Hy].
    destruct (goes_after (cmp x y)) eqn:E.
    + constructor; [apply IH, Hs |].
      rewrite Forall_forall in *. intros z Hz.
      apply (Permutation_in _ (sort_insert_perm cmp x l)) in Hz as [<- | Hz].
      * apply after_key, E.
      * apply Hy, Hz.
    + constructor; [constructor; assumption |].
      constructor; [apply not_after_key, E |].
      rewrite Forall_forall in *. intros z Hz.
      specialize (Hy z Hz). specialize (not_after_key x y E).
      cbn beta in Hy. lia.
Qed.

Lemma Array_sort_by_key l :
  StronglySorted (fun a b => key a <= key b) (Array_sort cmp l).
Proof.
  induction l as [| x l IH]; cbn; [constructor | apply sort_insert_by_key, IH].
Qed.

End SortedByKey.

Lemma StronglySorted_firstn {A} (R : A -> A -> Prop) n l :
  StronglySorted R l -> StronglySorted R (firstn n l).
Proof.
  revert l. induction n as [| n IH]; intros [| x l] H; cbn; try constructor.
  - apply IH. apply StronglySorted_inv in H. tauto.
  - apply StronglySorted_inv in H as [_ H]. rewrite Forall_forall in *.
    intros y Hy. apply H. apply In_firstn_In in Hy. exact Hy.
Qed.

Lemma sortScans_after_tier getTime x y :
  goes_after (sortScans getTime x y) = true -> tierOrder (tier y) <= tierOrder (tier x).
Proof.
  unfold sortScans.
  destruct (Z.eqb_spec (tierOrder (tier x)) (tierOrder (tier y))); cbn [negb]; [lia |].
  cbn [goes_after]. rewrite Z.ltb_lt. lia.
Qed.

Lemma sortScans_not_after_tier getTime x y :
  goes_after (sortScans getTime x y) = false -> tierOrder (tier x) <= tierOrder (tier y).
Proof.
  unfold sortScans.
  destruct (Z.eqb_spec (tierOrder (tier x)) (tierOrder (tier y))); cbn [negb]; [lia |].
  cbn [goes_after]. rewrite Z.ltb_ge. lia.
Qed.

(** X14.  Sorting a history whose timestamps parse rearranges it and
    nothing else, puts every riskier tier before every safer one, and
    leaves no entry directly followed by one that ranks before it. *)
Theorem sorted_history_is_riskiest_first :
  forall (getTime : string -> option Z) (l : list ScanResult),
    Forall (fun s => exists t, getTime (timestamp s) = Some t) l ->
    Permutation (Array_sort (sortScans getTime) l) l
    /\ StronglySorted (fun x y => tierOrder (tier x) <= tierOrder (tier y))
         (Array_sort (sortScans getTime) l)
    /\ Sorted (not_after (sortScans getTime)) (Array_sort (sortScans getTime) l).
Proof.
  intros getTime l Hl. split; [apply Array_sort_perm |]. split.
  - apply (Array_sort_by_key (sortScans getTime) (fun s => tierOrder (tier s))).
    + apply sortScans_after_tier.
    + apply sortScans_not_after_tier.
  - apply history_sorted_by_sortScans, Hl.
Qed.

Lemma sorted_history_is_riskiest_first_witness :
  Forall (fun s => exists t, sampleDate (timestamp s) = Some t) [safeScan; riskyScan; midScan]
  /\ Permutation (Array_sort (sortScans sampleDate) [safeScan; riskyScan; midScan])
                 [safeScan; riskyScan; midScan].
Proof.
  assert (H : Forall (fun s => exists t, sampleDate (timestamp s) = Some t)
                     [safeScan; riskyScan; midScan]).
  { repeat constructor; eexists; reflexivity. }
  split; [exact H |].
  exact (proj1 (sorted_history_is_riskiest_first sampleDate _ H)).
Defined.

(** ** Reactions *)

(** X15.  A click on a reaction button changes nothing but the viewer's
    own vote: with both counters present, the likes and dislikes that
    are not the viewer's own are the same after each of the four
    handlers as before. *)
Theorem clicks_change_only_the_own_vote :
  forall (r : Reactions) (l d : Z),
    r_likes r = Some l ->
    r_dislikes r = Some d ->
    (others_likes (App_like r) = others_likes r
     /\ others_dislikes (App_like r) = others_dislikes r)
    /\ (others_likes (App_dislike r) = others_likes r
        /\ others_dislikes (App_dislike r) = others_dislikes r)
    /\ (others_likes (Community.handleLike r) = others_likes r
        /\ others_dislikes (Community.handleLike r) = others_dislikes r)
    /\ (others_likes (Community.handleDislike r) = others_likes r
        /\ others_dislikes (Community.handleDislike r) = others_dislikes r).
Proof.
  intros [rl rd [[|] |]] l d Hl Hd; cbn in Hl, Hd; subst rl rd;
    unfold others_likes, others_dislikes; cbn; repeat split; lia.
Qed.

Lemma clicks_change_only_the_own_vote_witness :
  r_likes (mkReactions (Some 4) (Some 2) (Some dislike)) = Some 4
  /\ r_dislikes (mkReactions (Some 4) (Some 2) (Some dislike)) = Some 2
  /\ others_dislikes (App_like (mkReactions (Some 4) (Some 2) (Some dislike))) = 1.
Proof.
  split; [reflexivity |]. split; [reflexivity |].
  destruct (clicks_change_only_the_own_vote
              (mkReactions (Some 4) (Some 2) (Some dislike)) 4 2 eq_refl eq_refl)
    as ((_ & H) & _).
  rewrite H. reflexivity.
Defined.

(** X16.  The two views implement the same buttons: on an entry whose
    counters are both present, the main view's like and dislike handlers
    compute exactly what the community view's [handleLike] and
    [handleDislike] compute. *)
Theorem both_views_react_alike :
  forall (r : Reactions) (l d : Z),
    r_likes r = Some l ->
    r_dislikes r = Some d ->
    App_like r = Community.handleLike r
    /\ App_dislike r = Community.handleDislike r.
Proof.
  intros [rl rd [[|] |]] l d Hl Hd; cbn in Hl, Hd; subst rl rd; split; reflexivity.
Qed.

Lemma both_views_react_alike_witness :
  r_likes fresh = Some 0 /\ r_dislikes fresh = Some 0
  /\ App_like fresh = Community.handleLike fresh.
Proof.
  split; [reflexivity |]. split; [reflexivity |].
  exact (proj1 (both_views_react_alike fresh 0 0 eq_refl eq_refl)).
Defined.

(** X17.  Pressing the same button twice undoes the press, unless the
    opposite reaction was recorded before: then the second press leaves
    the entry without reaction and with the opposite vote withdrawn. *)
Theorem pressing_twice :
  forall (l d : Z) (u : option Reaction),
    let r := mkReactions (Some l) (Some d) u in
    (u <> Some dislike -> App_like (App_like r) = r)
    /\ (u = Some dislike ->
        App_like (App_like r) = mkReactions (Some l) (Some (d - 1)) None)
    /\ (u <> Some like -> App_dislike (App_dislike r) = r)
    /\ (u = Some like ->
        App_dislike (App_dislike r) = mkReactions (Some (l - 1)) (Some d) None).
Proof.
  intros l d [[|] |] r; subst r; cbn; repeat split; intros H;
    try congruence; try discriminate H; repeat f_equal; lia.
Qed.

(** X18.  Where the counters of an entry come from.  With an entry under
    [links] whose counters are both present, [loadHistory] and the
    realtime listener both show exactly its values, whatever the history
    record holds, and what [saveScanToFirebase] writes is read back
    unchanged.  Without an entry under [links], [loadHistory] shows
    zeros, while the realtime listener shows the counters of the history
    record; neither shows a reaction. *)
Theorem counters_come_from_links :
  forall (r h : Reactions) (l d : Z),
    r_likes r = Some l ->
    r_dislikes r = Some d ->
    loadMerge (Some r) = r
    /\ mergeEntry (Some r) h None = r
    /\ loadMerge (Some (savedLinks r)) = r
    /\ loadMerge None = fresh
    /\ mergeEntry None h None
       = mkReactions (Some (JS.nullish (r_likes h) 0))
                     (Some (JS.nullish (r_dislikes h) 0)) None.
Proof.
  intros [rl rd u] h l d Hl Hd; cbn in Hl, Hd; subst rl rd.
  repeat split; destruct u; reflexivity.
Qed.

Lemma counters_come_from_links_witness :
  r_likes (mkReactions (Some 3) (Some 1) (Some like)) = Some 3
  /\ r_dislikes (mkReactions (Some 3) (Some 1) (Some like)) = Some 1
  /\ mergeEntry (Some (mkReactions (Some 3) (Some 1) (Some like))) fresh None
     = mkReactions (Some 3) (Some 1) (Some like).
Proof.
  split; [reflexivity |]. split; [reflexivity |].
  destruct (counters_come_from_links (mkReactions (Some 3) (Some 1) (Some like))
              fresh 3 1 eq_refl eq_refl) as (_ & H & _).
  exact H.
Defined.

(** ** The community view's list *)

Section SortedByKeyOn.

Context {A : Type}.
Variable cmp : A -> A -> option Z.
Variable key : A -> Z.
Variable good : A -> Prop.
Hypothesis after_key :
  forall x y, good x -> good y -> goes_after (cmp x y) = true -> key y <= key x.
Hypothesis not_after_key :
  forall x y, good x -> good y -> goes_after (cmp x y) = false -> key x <= key y.

Lemma sort_insert_by_key_on x l :
  good x -> Forall good l ->
  StronglySorted (fun a b => key a <= key b) l ->
  StronglySorted (fun a b => key a <= key b) (sort_insert cmp x l).
Proof.
  intros Hx. induction l as [| y l IH]; cbn [sort_insert]; intros Hl Hs.
  - repeat constructor.
  - apply Forall_inv in Hl as Hgy. apply Forall_inv_tail in Hl.
    apply StronglySorted_inv in Hs as [Hs Hy].
    destruct (goes_after (cmp x y)) eqn:E.
    + constructor; [apply IH; assumption |].
      rewrite Forall_forall in Hy |- *. intros z Hz.
      apply (Permutation_in _ (sort_insert_perm cmp x l)) in Hz as [<- | Hz].
      * apply after_key; assumption.
      * apply Hy, Hz.
    + constructor; [constructor; assumption |].
      constructor; [apply not_after_key; assumption |].
      rewrite Forall_forall in Hy |- *. intros z Hz.
      specialize (Hy z Hz). specialize (not_after_key x y Hx Hgy E).
      cbn beta in Hy. lia.
Qed.

Lemma Array_sort_by_key_on l :
  Forall good l -> StronglySorted (fun a b => key a <= key b) (Array_sort cmp l).
Proof.
  induction l as [| x l IH]; intros Hl; cbn; [constructor |].
  apply Forall_inv in Hl as Hx. apply Forall_inv_tail in Hl.
  apply sort_insert_by_key_on; [exact Hx | apply Array_sort_Forall, Hl | apply IH, Hl].
Qed.

End SortedByKeyOn.

(** With tiers that are no key of [Object.prototype], the first
    criterion of the comparator is the difference of the two ranks. *)
Lemma Community_sortScans_by_rank getTime x y :
  own_or_absent_tier x -> own_or_absent_tier y ->
  Community.sortScans getTime x y
  = if negb (Community_rank y - Community_rank x =? 0)
    then Some (Community_rank y - Community_rank x)
    else Community.sortScans getTime x y.
Proof.
  unfold own_or_absent_tier, Community_rank, Community.sortScans. intros Hx Hy.
  destruct (Community.tierPriority (Community.tier x)); [| congruence |];
    (destruct (Community.tierPriority (Community.tier y)); [| congruence |]);
    cbn [Community.priority_or_0 num_sub Community.is_not_zero];
    destruct (negb _); reflexivity.
Qed.

Lemma Community_sortScans_after_rank getTime x y :
  own_or_absent_tier x -> own_or_absent_tier y ->
  goes_after (Community.sortScans getTime x y) = true ->
  Community_rank x <= Community_rank y.
Proof.
  intros Hx Hy. rewrite (Community_sortScans_by_rank getTime x y Hx Hy).
  destruct (Z.eqb_spec (Community_rank y - Community_rank x) 0); cbn [negb]; [lia |].
  cbn [goes_after]. rewrite Z.ltb_lt. lia.
Qed.

Lemma Community_sortScans_not_after_rank getTime x y :
  own_or_absent_tier x -> own_or_absent_tier y ->
  goes_after (Community.sortScans getTime x y) = false ->
  Community_rank y <= Community_rank x.
Proof.
  intros Hx Hy. rewrite (Community_sortScans_by_rank getTime x y Hx Hy).
  destruct (Z.eqb_spec (Community_rank y - Community_rank x) 0); cbn [negb]; [lia |].
  cbn [goes_after]. rewrite Z.ltb_ge. lia.
Qed.

(** A tier that is a key of [Object.prototype] makes the comparator
    return [NaN] against every record, on either side. *)
Lemma Community_sortScans_inherited_tier getTime x y :
  Community.tierPriority (Community.tier x) = Community.Inherited
  \/ Community.tierPriority (Community.tier y) = Community.Inherited ->
  Community.sortScans getTime x y = None.
Proof.
  unfold Community.sortScans. intros [H | H]; rewrite H.
  - destruct (Community.priority_or_0 _); reflexivity.
  - reflexivity.
Qed.

(** So a record whose tier is the text constructor, stored before a High
    Risk record, is shown before it, while one of an unknown tier that is
    no such key is shown after it. *)
Lemma Community_loadScans_inherited_tier_first :
  let named t := Community.mkScanResult "id-9" "http://example.com/" 5 t "#f59e0b"
                   "1/1/2024, 12:00:00 AM" (Some 0) (Some 0) None in
  Community_loadScans sampleDate [named "constructor"; stored riskyScan]
  = [named "constructor"; stored riskyScan]
  /\ Community_loadScans sampleDate [named "unknown"; stored riskyScan]
     = [stored riskyScan; named "unknown"].
Proof. split; vm_compute; reflexivity. Qed.

(** X19.  The community view shows at most twenty records, all of them
    from the store.  When no record's tier is a key of
    [Object.prototype] (constructor, toString, __proto__ and the like),
    no record of a riskier tier comes after one of a safer tier, and a
    record whose tier is none of the three names ranks last. *)
Theorem Community_loadScans_shows_riskiest_twenty :
  forall (getTime : string -> option Z) (data : list Community.ScanResult),
    (List.length (Community_loadScans getTime data) <= 20)%nat
    /\ (forall s, In s (Community_loadScans getTime data) -> In s data)
    /\ (Forall own_or_absent_tier data ->
        StronglySorted (fun x y => Community_rank y <= Community_rank x)
                       (Community_loadScans getTime data)).
Proof.
  intros getTime data. unfold Community_loadScans. split; [| split].
  - apply length_firstn_le.
  - intros s Hs. apply In_firstn_In in Hs.
    apply (Permutation_in _ (Array_sort_perm _ data)) in Hs. exact Hs.
  - intros Hdata. apply StronglySorted_firstn.
    assert (Hs : StronglySorted
                   (fun x y => - Community_rank x <= - Community_rank y)
                   (Array_sort (Community.sortScans getTime) data)).
    { apply (Array_sort_by_key_on (Community.sortScans getTime)
               (fun s => - Community_rank s) own_or_absent_tier); [| | exact Hdata].
      - intros x y Hx Hy Hxy.
        apply Community_sortScans_after_rank in Hxy; [lia | assumption | assumption].
      - intros x y Hx Hy Hxy.
        apply Community_sortScans_not_after_rank in Hxy; [lia | assumption | assumption]. }
    induction Hs as [| x l Hs IH Hx]; constructor; [exact IH |].
    rewrite Forall_forall in *. intros y Hy. specialize (Hx y Hy). cbn beta in Hx. lia.
Qed.

Lemma Community_loadScans_shows_riskiest_twenty_witness :
  Forall own_or_absent_tier (map stored [safeScan; riskyScan; midScan])
  /\ StronglySorted (fun x y => Community_rank y <= Community_rank x)
       (Community_loadScans sampleDate (map stored [safeScan; riskyScan; midScan])).
Proof.
  assert (H : Forall own_or_absent_tier (map stored [safeScan; riskyScan; midScan])).
  { repeat constructor; unfold own_or_absent_tier; vm_compute; discriminate. }
  split; [exact H |].
  exact (proj2 (proj2 (Community_loadScans_shows_riskiest_twenty sampleDate _)) H).
Defined.

(** ** Input validation *)

Lemma has_scheme_not_blank v : has_scheme v = true -> JS.blank v = false.
Proof.
  unfold has_scheme, JS.startsWith. destruct v as [| c v]; [discriminate |].
  rewrite !prefix_cons. intros H.
  assert (Hc : Ascii.eqb "h" c = true).
  { destruct (Ascii.eqb "h" c); [reflexivity | discriminate H]. }
  apply Ascii.eqb_eq in Hc. subst c. reflexivity.
Qed.

(** X20.  [validateInput] rejects every text that is empty or only white
    space, and accepts every text that starts with http:// or https://,
    whatever follows the two slashes, even nothing. *)
Theorem validateInput_blank_and_scheme :
  forall v : string,
    (JS.blank v = true -> validateInput v = false)
    /\ (has_scheme v = true -> validateInput v = true).
Proof.
  intros v. unfold validateInput. split.
  - intros ->. reflexivity.
  - intros H. rewrite (has_scheme_not_blank v H), H. apply orb_true_r.
Qed.

Lemma split_not_nil c s : JS.split c s <> [].
Proof.
  destruct s as [| d s]; cbn; [discriminate |].
  destruct (Ascii.eqb c d); [discriminate |].
  destruct (JS.split c s); discriminate.
Qed.

Lemma split_all_chars (p : ascii -> bool) c s :
  Forall (fun l => JS.all_chars p l = true) (JS.split c s) ->
  JS.all_chars (fun d => p d || Ascii.eqb d c) s = true.
Proof.
  induction s as [| d s IH]; cbn [JS.split JS.all_chars]; [reflexivity |].
  destruct (Ascii.eqb c d) eqn:E.
  - intros H. apply Forall_inv_tail in H.
    rewrite Ascii.eqb_sym, E, orb_true_r. apply IH, H.
  - destruct (JS.split c s) as [| part parts] eqn:Es.
    + exfalso. exact (split_not_nil c s Es).
    + intros H. apply Forall_inv in H as Hd. apply Forall_inv_tail in H.
      cbn [JS.all_chars] in Hd. apply andb_prop in Hd as [Hd Hpart].
      rewrite Hd. cbn [orb andb]. apply IH. constructor; assumption.
Qed.

Lemma split_without_separator c s :
  JS.includes s (String c EmptyString) = false -> JS.split c s = [s].
Proof.
  induction s as [| d s IH]; cbn [JS.includes JS.split]; [reflexivity |].
  rewrite prefix_cons, prefix_nil_l, andb_true_r.
  intros H. apply orb_false_elim in H as [Hc Hs].
  rewrite Hc, (IH Hs). reflexivity.
Qed.

Lemma all_chars_weaken (p q : ascii -> bool) s :
  (forall c, p c = true -> q c = true) ->
  JS.all_chars p s = true -> JS.all_chars q s = true.
Proof.
  intros Hpq. induction s as [| c s IH]; cbn; [reflexivity |].
  intros H. apply andb_prop in H as [Hc Hs]. rewrite (Hpq c Hc), (IH Hs). reflexivity.
Qed.

Lemma dotted_domain_shape h :
  dotted_domain h = true ->
  JS.includes h "." = true
  /\ JS.all_chars (fun c => label_char c || Ascii.eqb c ".") h = true.
Proof.
  unfold dotted_domain. intros H. split.
  - destruct (JS.includes h ".") eqn:E; [reflexivity |].
    rewrite (split_without_separator "." h E) in H. discriminate H.
  - apply split_all_chars. rewrite Forall_forall. intros x Hx.
    apply in_rev in Hx.
    destruct (rev (JS.split "." h)) as [| tld [| l ls]]; try discriminate H.
    apply andb_prop in H as [Htld Hls].
    destruct Hx as [<- | Hx].
    + unfold top_level_label in Htld. apply andb_prop in Htld as [_ Htld].
      revert Htld. apply all_chars_weaken. intros c Hc. unfold label_char.
      rewrite Hc. reflexivity.
    + rewrite forallb_forall in Hls. specialize (Hls x Hx).
      unfold domain_label in Hls. apply andb_prop in Hls as [_ Hls]. exact Hls.
Qed.

(** X21.  An address accepted without a scheme has, before its first
    slash, a host made of letters, digits, hyphens and dots only, with
    at least one dot: no white space, no port, no user name. *)
Theorem accepted_bare_address_has_a_dotted_host :
  forall v : string,
    validateInput v = true ->
    has_scheme v = false ->
    JS.includes (JS.split_head "/" v) "." = true
    /\ JS.all_chars (fun c => label_char c || Ascii.eqb c ".") (JS.split_head "/" v) = true.
Proof.
  intros v Hv Hs. unfold validateInput in Hv.
  destruct (JS.blank v); [discriminate |].
  rewrite Hs, orb_false_r in Hv. unfold bare_address in Hv.
  apply andb_prop in Hv as [Hd _]. apply dotted_domain_shape, Hd.
Qed.

Lemma accepted_bare_address_has_a_dotted_host_witness :
  validateInput "sub.example.org/some path" = true
  /\ has_scheme "sub.example.org/some path" = false
  /\ JS.includes (JS.split_head "/" "sub.example.org/some path") "." = true.
Proof.
  split; [reflexivity |]. split; [reflexivity |].
  exact (proj1 (accepted_bare_address_has_a_dotted_host "sub.example.org/some path"
                  eq_refl eq_refl)).
Defined.

(** ** The domain existence gate *)

Lemma length_append a b :
  String.length (a ++ b) = (String.length a + String.length b)%nat.
Proof. induction a as [| c a IH]; cbn; [| rewrite IH]; reflexivity. Qed.

Lemma substring_whole s : String.substring 0 (String.length s) s = s.
Proof. induction s as [| c s IH]; cbn; [| rewrite IH]; reflexivity. Qed.

Lemma substring_skip a b :
  String.substring (String.length a) (String.length b) (a ++ b) = b.
Proof. induction a as [| c a IH]; cbn; [apply substring_whole | exact IH]. Qed.

Lemma endsWith_app a b : JS.endsWith (a ++ b) b = true.
Proof.
  unfold JS.endsWith. rewrite length_append.
  replace (String.length a + String.length b - String.length b)%nat
    with (String.length a) by lia.
  rewrite substring_skip, String.eqb_refl, andb_true_r.
  apply Nat.leb_le. lia.
Qed.

Lemma strip_www_of_subdomain sub d :
  let cleanHost := JS.strip_prefix "www." (sub ++ "." ++ d) in
  String.eqb cleanHost d || JS.endsWith cleanHost ("." ++ d) = true.
Proof.
  cbv zeta. unfold JS.strip_prefix.
  destruct (String.prefix "www." (sub ++ "." ++ d)) eqn:E.
  - destruct sub as [| c1 [| c2 [| c3 [| c4 sub]]]]; cbn [append] in *;
      rewrite ?prefix_cons in E; cbn in E; try discriminate E;
      repeat (apply andb_prop in E as [? E]);
      repeat match goal with
        | H : Ascii.eqb _ _ = true |- _ => apply Ascii.eqb_eq in H; subst
        end;
      try discriminate.
    + cbn [String.length Nat.sub String.substring].
      rewrite Nat.sub_0_r, substring_whole, String.eqb_refl. reflexivity.
    + cbn [String.length Nat.sub String.substring].
      rewrite Nat.sub_0_r, substring_whole.
      rewrite (endsWith_app sub (String "." d)). apply orb_true_r.
  - rewrite (endsWith_app sub ("." ++ d)). apply orb_true_r.
Qed.

Lemma isWellKnown_subdomain sub d :
  In d wellKnownDomains -> isWellKnown (sub ++ "." ++ d) = true.
Proof.
  intros Hd. unfold isWellKnown. apply existsb_exists. exists d.
  split; [exact Hd | apply strip_www_of_subdomain].
Qed.

Lemma isWellKnown_domain d :
  In d wellKnownDomains -> isWellKnown d = true /\ isWellKnown ("www." ++ d) = true.
Proof.
  intros Hd. unfold wellKnownDomains in Hd.
  repeat (destruct Hd as [<- | Hd]; [split; vm_compute; reflexivity |]).
  destruct Hd.
Qed.

(** X22.  The sixteen well-known domains, their www. form and every one
    of their subdomains pass the gate without a single request, whatever
    the network does. *)
Theorem well_known_domains_need_no_probe :
  forall (fetch : string -> bool) (d sub : string),
    In d wellKnownDomains ->
    isDomainValid_requests fetch d = (true, [])
    /\ isDomainValid_requests fetch ("www." ++ d) = (true, [])
    /\ isDomainValid_requests fetch (sub ++ "." ++ d) = (true, []).
Proof.
  intros fetch d sub Hd. unfold isDomainValid_requests.
  destruct (isWellKnown_domain d Hd) as [-> ->].
  rewrite (isWellKnown_subdomain sub d Hd). repeat split.
Qed.

Lemma well_known_domains_need_no_probe_witness :
  In "wikipedia.org" wellKnownDomains
  /\ isDomainValid_requests (fun _ => false) ("en.m" ++ "." ++ "wikipedia.org") = (true, []).
Proof.
  assert (H : In "wikipedia.org" wellKnownDomains).
  { unfold wellKnownDomains. cbn. tauto. }
  split; [exact H |].
  destruct (well_known_domains_need_no_probe (fun _ => false) "wikipedia.org" "en.m" H)
    as (_ & _ & Hsub).
  exact Hsub.
Defined.

Lemma probe_spec fetch urls :
  fst (probe fetch urls) = existsb fetch urls
  /\ (fst (probe fetch urls) = true ->
      exists before u after,
        urls = (before ++ u :: after)%list
        /\ snd (probe fetch urls) = (before ++ [u])%list
        /\ fetch u = true
        /\ Forall (fun x => fetch x = false) before)
  /\ (fst (probe fetch urls) = false ->
      snd (probe fetch urls) = urls /\ Forall (fun x => fetch x = false) urls).
Proof.
  induction urls as [| u urls (IHe & IHt & IHf)]; cbn [probe existsb].
  - cbn. split; [reflexivity |]. split; [discriminate |]. intros _. split; constructor.
  - destruct (fetch u) eqn:E; cbn [fst snd orb].
    + split; [reflexivity |]. split; [| discriminate].
      intros _. exists [], u, urls. repeat split; [exact E | constructor].
    + split; [exact IHe |]. split.
      * intros H. destruct (IHt H) as (before & v & after & -> & Hs & Hv & Hb).
        exists (u :: before), v, after. rewrite Hs. repeat split; [exact Hv |].
        constructor; assumption.
      * intros H. destruct (IHf H) as [-> Hall]. split; [reflexivity |].
        constructor; assumption.
Qed.

Lemma eqb_longer p s : p <> EmptyString -> String.eqb (p ++ s) s = false.
Proof.
  intros Hp. apply String.eqb_neq. intros H.
  apply (f_equal String.length) in H. rewrite length_append in H.
  destruct p; [congruence | cbn in H; lia].
Qed.

Lemma urlsToTry_distinct host : uniq (urlsToTry host) = urlsToTry host.
Proof.
  unfold uniq, urlsToTry. cbn -[append].
  assert (H1 : String.eqb ("https://www." ++ host ++ "/favicon.ico")
                          ("https://" ++ host ++ "/favicon.ico") = false).
  { cbn. apply (eqb_longer "www."). discriminate. }
  assert (H2 : String.eqb ("http://www." ++ host ++ "/favicon.ico")
                          ("http://" ++ host ++ "/favicon.ico") = false).
  { cbn. apply (eqb_longer "www."). discriminate. }
  rewrite H1, H2. reflexivity.
Qed.

(** X23.  For a host outside the well-known list the gate requests at
    most the four favicon addresses, in their fixed order and one after
    another: it stops at the first request that resolves and accepts the
    host, having seen every earlier request fail; it rejects the host
    only after all four have failed. *)
Theorem domain_gate_probes_in_order :
  forall (fetch : string -> bool) (host : string),
    isWellKnown host = false ->
    let ok := fst (isDomainValid_requests fetch host) in
    let requests := snd (isDomainValid_requests fetch host) in
    isDomainValid fetch host = ok
    /\ ok = existsb fetch (urlsToTry host)
    /\ (List.length requests <= 4)%nat
    /\ (ok = true ->
        exists before u after,
          urlsToTry host = (before ++ u :: after)%list
          /\ requests = (before ++ [u])%list
          /\ fetch u = true
          /\ Forall (fun x => fetch x = false) before)
    /\ (ok = false ->
        requests = urlsToTry host /\ Forall (fun x => fetch x = false) requests).
Proof.
  intros fetch host Hw ok requests. subst ok requests.
  unfold isDomainValid, isDomainValid_requests. rewrite Hw, urlsToTry_distinct.
  destruct (probe_spec fetch (urlsToTry host)) as (He & Ht & Hf).
  split; [reflexivity |]. split; [exact He |]. split; [| split].
  - destruct (fst (probe fetch (urlsToTry host))) eqn:E.
    + destruct (Ht eq_refl) as (before & u & after & Hurls & -> & _).
      apply (f_equal (@List.length string)) in Hurls.
      rewrite !length_app in *. cbn in *. lia.
    + destruct (Hf eq_refl) as [-> _]. cbn. lia.
  - exact Ht.
  - intros H. destruct (Hf H) as [Hs Hall]. rewrite Hs. split; [reflexivity | exact Hall].
Qed.

Lemma domain_gate_probes_in_order_witness :
  isWellKnown "example.net" = false
  /\ isDomainValid (fun u => String.eqb u "https://www.example.net/favicon.ico")
                   "example.net"
     = existsb (fun u => String.eqb u "https://www.example.net/favicon.ico")
               (urlsToTry "example.net").
Proof.
  split; [reflexivity |].
  destruct (domain_gate_probes_in_order
              (fun u => String.eqb u "https://www.example.net/favicon.ico")
              "example.net" eq_refl) as (H1 & H2 & _).
  rewrite H1. exact H2.
Defined.

(** ** The analysis flow *)

Lemma runExternalCheckIn_own_scan getTime st o :
  runExternalCheckIn getTime (scan st) st o = runExternalCheck getTime st o.
Proof.
  unfold runExternalCheckIn, runExternalCheck.
  destruct (scan st) as [sc |] eqn:E; [| reflexivity].
  destruct (realExternalLookup o); reflexivity.
Qed.

(** X24.  The automatic external check that follows a mid-tier analysis
    works on the result that was displayed when the form was submitted,
    not on the new one.  With nothing displayed it does nothing: the new
    result is shown with [apiCheck] still null and is put first in the
    history, whatever the remote service would answer.  With a result
    displayed, a reply to the check puts that earlier result, reconciled,
    back on display.  Outside the mid tier no check is run. *)
Theorem automatic_check_uses_the_displayed_result :
  forall (getTime : string -> option Z) (URL : string -> option Location)
         (fetch : string -> bool) (input : string) (st : AppState)
         (newId now : string) (o : FetchOutcome),
    validateInput input = true ->
    isDomainValid fetch (host (parseHost URL input)) = true ->
    let new := scoreUrl URL input newId now in
    let st' := handleAnalyze getTime URL fetch input st newId now o in
    (scan st = None ->
     st' = mkAppState (Some new) (firstn 5 (new :: history st)) false None
     /\ apiCheck new = None)
    /\ (forall prev ext,
          scan st = Some prev ->
          3 < safety new <= 6 ->
          realExternalLookup o = Some ext ->
          scan st' = Some (updatedScan prev ext))
    /\ (safety new <= 3 \/ 6 < safety new ->
        st' = mkAppState (Some new) (firstn 5 (new :: history st)) false None).
Proof.
  intros getTime URL fetch input st newId now o Hv Hd new st'. subst st'.
  unfold handleAnalyze. rewrite Hv, Hd. cbn [negb]. fold new.
  split; [| split].
  - intros Hnone. rewrite Hnone. cbn [runExternalCheckIn].
    split; [| reflexivity].
    destruct ((3 <? safety new) && (safety new <=? 6)); reflexivity.
  - intros prev ext Hprev [H3 H6] Hext.
    apply Z.ltb_lt in H3. apply Z.leb_le in H6. rewrite H3, H6, Hprev.
    cbn [andb runExternalCheckIn]. rewrite Hext. reflexivity.
  - intros Hout.
    assert (E : (3 <? safety new) && (safety new <=? 6) = false).
    { destruct (Z.ltb_spec 3 (safety new)), (Z.leb_spec (safety new) 6);
        try reflexivity; lia. }
    rewrite E. reflexivity.
Qed.

Lemma automatic_check_uses_the_displayed_result_witness :
  validateInput "http://example.com/" = true
  /\ isDomainValid (fun _ => true) (host (parseHost sampleURL "http://example.com/")) = true
  /\ scan (handleAnalyze sampleDate sampleURL (fun _ => true) "http://example.com/"
             (mkAppState None [] false None) "id-1" "1/1/2024, 12:00:00 AM"
             (FetchResolved true (Some malicious_reply)))
     = Some midScan.
Proof.
  split; [reflexivity |]. split; [reflexivity |].
  destruct (automatic_check_uses_the_displayed_result sampleDate sampleURL (fun _ => true)
              "http://example.com/" (mkAppState None [] false None) "id-1"
              "1/1/2024, 12:00:00 AM" (FetchResolved true (Some malicious_reply))
              eq_refl eq_refl) as (H & _).
  destruct (H eq_refl) as [-> _]. reflexivity.
Defined.

Lemma Array_sort_length {A} (cmp : A -> A -> option Z) l :
  List.length (Array_sort cmp l) = List.length l.
Proof. apply Permutation_length, Array_sort_perm. Qed.

Lemma runExternalCheckIn_history_length getTime captured st o :
  (List.length (history (runExternalCheckIn getTime captured st o))
   <= List.length (history st))%nat.
Proof.
  unfold runExternalCheckIn. destruct captured as [sc |]; [| lia].
  destruct (realExternalLookup o); cbn [history]; [| lia].
  destruct (length_firstn_le 5 (Array_sort (sortScans getTime)
              (map (fun s => if String.eqb (id s) (id sc) then updatedScan sc e else s)
                   (history st)))) as [_ H].
  rewrite Array_sort_length, length_map in H. exact H.
Qed.

(** X25.  The history of the main view never grows past five entries:
    whatever its inputs, [handleAnalyze] leaves at most five, and when it
    rejects the input it leaves the history as it was; [runExternalCheck]
    and the reaction buttons never lengthen it. *)
Theorem history_holds_at_most_five :
  forall (getTime : string -> option Z) (URL : string -> option Location)
         (fetch : string -> bool) (input : string) (st : AppState)
         (newId now : string) (o : FetchOutcome) (h : ScanResult),
    (List.length (history st) <= 5)%nat ->
    (List.length (history (handleAnalyze getTime URL fetch input st newId now o)) <= 5)%nat
    /\ (validateInput input = false
        \/ isDomainValid fetch (host (parseHost URL input)) = false ->
        history (handleAnalyze getTime URL fetch input st newId now o) = history st)
    /\ (List.length (history (runExternalCheck getTime st o)) <= 5)%nat
    /\ List.length (history (likeClick getTime st h)) = List.length (history st)
    /\ List.length (history (dislikeClick getTime st h)) = List.length (history st).
Proof.
  intros getTime URL fetch input st newId now o h H5. split; [| split; [| split; [| split]]].
  - unfold handleAnalyze.
    destruct (validateInput input); cbn [negb history]; [| exact H5].
    destruct (isDomainValid fetch _); cbn [negb history]; [| exact H5].
    set (new := scoreUrl URL input newId now).
    set (st1 := mkAppState (Some new) (firstn 5 (new :: history st)) true None).
    assert (H1 : (List.length (history st1) <= 5)%nat) by apply length_firstn_le.
    destruct ((3 <? safety new) && (safety new <=? 6)); [| exact H1].
    pose proof (runExternalCheckIn_history_length getTime (scan st) st1 o). lia.
  - unfold handleAnalyze. intros [-> | Hd]; [reflexivity |].
    destruct (validateInput input); [| reflexivity].
    rewrite Hd. reflexivity.
  - rewrite <- runExternalCheckIn_own_scan.
    pose proof (runExternalCheckIn_history_length getTime (scan st) st o). lia.
  - unfold likeClick, setReactions. cbn [history].
    rewrite Array_sort_length, length_map. reflexivity.
  - unfold dislikeClick, setReactions. cbn [history].
    rewrite Array_sort_length, length_map. reflexivity.
Qed.

Lemma history_holds_at_most_five_witness :
  (List.length (history midState) <= 5)%nat
  /\ (List.length (history (handleAnalyze sampleDate sampleURL (fun _ => true)
                             "https://www.google.com/" midState "id-3"
                             "1/2/2024, 12:00:00 AM" FetchRejected)) <= 5)%nat.
Proof.
  assert (H : (List.length (history midState) <= 5)%nat) by (cbn; lia).
  split; [exact H |].
  exact (proj1 (history_holds_at_most_five sampleDate sampleURL (fun _ => true)
                  "https://www.google.com/" midState "id-3" "1/2/2024, 12:00:00 AM"
                  FetchRejected midScan H)).
Defined.

(** ** Storage keys *)

Lemma sanitize_safe s :
  JS.all_chars (fun c => negb (key_unsafe c)) (sanitize s) = true.
Proof.
  unfold sanitize. induction s as [| c s IH]; cbn; [reflexivity |].
  rewrite IH, andb_true_r. destruct (key_unsafe c) eqn:E; [reflexivity |].
  rewrite E. reflexivity.
Qed.

Lemma all_chars_app p a b :
  JS.all_chars p (a ++ b) = JS.all_chars p a && JS.all_chars p b.
Proof.
  induction a as [| c a IH]; cbn; [reflexivity |].
  rewrite IH, andb_assoc. reflexivity.
Qed.

Lemma sanitize_length s : String.length (sanitize s) = String.length s.
Proof. unfold sanitize. induction s as [| c s IH]; cbn; [| rewrite IH]; reflexivity. Qed.

Lemma sanitize_idempotent s : sanitize (sanitize s) = sanitize s.
Proof.
  unfold sanitize. induction s as [| c s IH]; cbn; [reflexivity |].
  rewrite IH. destruct (key_unsafe c) eqn:E; [reflexivity |].
  rewrite E. reflexivity.
Qed.

(** X26.  Both [safeKey] functions return a key free of the characters
    [.], [#], [$], [/], [[] and []], whatever the input and whatever the
    address parser does with it; the community view's key has the length
    of the address, and sanitising a key again changes nothing. *)
Theorem safeKey_is_storage_safe :
  forall (URL : string -> option Location) (url : string),
    JS.all_chars (fun c => negb (key_unsafe c)) (safeKey URL url) = true
    /\ JS.all_chars (fun c => negb (key_unsafe c)) (Community_safeKey url) = true
    /\ String.length (Community_safeKey url) = String.length url
    /\ Community_safeKey (Community_safeKey url) = Community_safeKey url.
Proof.
  intros URL url. unfold safeKey, Community_safeKey. split; [| split; [| split]].
  - destruct (URL _) as [u |].
    + rewrite all_chars_app, !sanitize_safe. reflexivity.
    + apply sanitize_safe.
  - apply sanitize_safe.
  - apply sanitize_length.
  - apply sanitize_idempotent.
Qed.

(** ** Comment attachments *)

Lemma firstn_app_full {A} (n : nat) (l l' : list A) :
  (n <= List.length l)%nat -> firstn n (l ++ l') = firstn n l.
Proof.
  revert l. induction n as [| n IH]; intros [| x l] H; cbn in *; try reflexivity; try lia.
  rewrite IH by lia. reflexivity.
Qed.

(** X27.  A comment never carries more than three images.  Each finished
    reader leaves at most three; once three are attached a further image
    is dropped and the three stay.  Of the files selected only the first
    three are looked at, and a reader is started only for PNG or JPEG
    files of at most 6 MB among them. *)
Theorem at_most_three_images :
  forall (images : option (list string)) (attached : list string) (base64 : string)
         (files more : list File),
    (List.length (onImageLoaded images base64) <= 3)%nat
    /\ ((3 <= List.length attached)%nat ->
        onImageLoaded (Some attached) base64 = firstn 3 attached)
    /\ (List.length (readersStarted files) <= 3)%nat
    /\ Forall (fun f => (file_type f = "image/png" \/ file_type f = "image/jpeg")
                        /\ file_size f <= 6 * 1024 * 1024)
              (readersStarted files)
    /\ ((3 <= List.length files)%nat ->
        readersStarted (files ++ more) = readersStarted files).
Proof.
  intros images attached base64 files more.
  split; [| split; [| split; [| split]]].
  - apply length_firstn_le.
  - intros H. unfold onImageLoaded. apply firstn_app_full, H.
  - unfold readersStarted.
    pose proof (filter_length_le acceptable (firstn 3 files)).
    destruct (length_firstn_le 3 files). lia.
  - unfold readersStarted. rewrite Forall_forall. intros f Hf.
    apply filter_In in Hf as [_ Hf]. unfold acceptable in Hf.
    apply andb_prop in Hf as [Ht Hs]. split.
    + apply orb_prop in Ht as [Ht | Ht]; apply String.eqb_eq in Ht; auto.
    + apply negb_true_iff, Z.ltb_ge in Hs. exact Hs.
  - intros H. unfold readersStarted. rewrite firstn_app_full by exact H. reflexivity.
Qed.

(** ** Submitting a comment *)

Lemma trimStart_starts_clean s : starts_clean (JS.trimStart s).
Proof.
  induction s as [| c s IH]; cbn; [exact I |].
  destruct (JS.is_space c) eqn:E; [exact IH | exact E].
Qed.

Lemma trimEnd_keeps_start s : starts_clean s -> starts_clean (JS.trimEnd s).
Proof.
  destruct s as [| c s]; cbn; [trivial |]. intros Hc.
  destruct (JS.trimEnd s); [rewrite Hc |]; exact Hc.
Qed.

Lemma trimEnd_ends_clean s : ends_clean (JS.trimEnd s).
Proof.
  unfold ends_clean. induction s as [| c s IH]; cbn [JS.trimEnd]; [exact I |].
  destruct (JS.trimEnd s) as [| d kept].
  - destruct (JS.is_space c) eqn:E; cbn; [exact I | exact E].
  - exact IH.
Qed.

Lemma trim_blank s : JS.blank s = true -> JS.trim s = EmptyString.
Proof.
  unfold JS.trim. induction s as [| c s IH]; cbn; [reflexivity |].
  intros H. apply andb_prop in H as [-> Hs]. apply IH, Hs.
Qed.

(** X28.  The Comment button refuses exactly the comments that have
    neither text other than white space nor an image; the text that is
    submitted never starts or ends with white space, and a comment of
    white space only is submitted, with its images, as the empty text. *)
Theorem comment_is_checked_and_trimmed :
  forall (newComment : option string) (newCommentImages : option (list string)),
    (commentRejected newComment newCommentImages = false
     <-> (exists t, newComment = Some t /\ JS.blank t = false)
         \/ (exists i rest, newCommentImages = Some (i :: rest)))
    /\ starts_clean (commentText newComment)
    /\ ends_clean (commentText newComment)
    /\ (forall t, newComment = Some t -> JS.blank t = true ->
        commentText newComment = EmptyString).
Proof.
  intros nc imgs. split; [| split; [| split]].
  - unfold commentRejected. split.
    + intros H. apply andb_false_iff in H as [H | H].
      * left. destruct nc as [t |]; [exists t; split; [reflexivity | exact H] | discriminate].
      * right. destruct imgs as [[| i rest] |]; try discriminate. exists i, rest. reflexivity.
    + intros [(t & -> & Ht) | (i & rest & ->)].
      * rewrite Ht. reflexivity.
      * apply andb_false_r.
  - destruct nc as [t |]; cbn; [| exact I].
    apply trimEnd_keeps_start, trimStart_starts_clean.
  - destruct nc as [t |]; cbn [commentText]; [apply trimEnd_ends_clean | exact I].
  - intros t -> Ht. apply trim_blank, Ht.
Qed.

(** ** Searching the community list *)





(** On ASCII text the two lower-casings agree. *)
Lemma toLowerCase_latin1_ascii s :
  JS.all_chars JS.is_ascii s = true -> JS.toLowerCase_latin1 s = JS.toLowerCase s.
Proof.
  induction s as [| c s IH]; cbn [JS.all_chars JS.toLowerCase_latin1 JS.toLowerCase];
    [reflexivity |].
  intros H. apply andb_prop in H as [Hc Hs]. rewrite (IH Hs). f_equal.
  revert Hc. destruct c as [[] [] [] [] [] [] [] []]; vm_compute;
    intros Hc; try reflexivity; discriminate Hc.
Qed.

(** An accented capital in the search text finds the small letter in an
    address, and the other way round. *)
Lemma search_ignores_case_of_accented_letters :
  filteredHistory ("CAF" ++ capital_e_acute) [cafe_record] = [cafe_record]
  /\ JS.includes (JS.toLowerCase (Community.url cafe_record))
                 (JS.toLowerCase ("CAF" ++ capital_e_acute)) = false.
Proof. split; vm_compute; reflexivity. Qed.


(** ** The rule-based scan of the earlier front end *)

Lemma push_if_nil c msg rs : push_if c msg rs = [] <-> c = false /\ rs = [].
Proof.
  unfold push_if. destruct c; split.
  - intros H. destruct rs; discriminate H.
  - intros [H _]. discriminate H.
  - intros ->. split; reflexivity.
  - intros [_ ->]. reflexivity.
Qed.

Lemma push_if_length c msg rs :
  (List.length (push_if c msg rs) <= S (List.length rs))%nat.
Proof. unfold push_if. destruct c; [rewrite length_app; cbn |]; lia. Qed.

Lemma push_if_cons c msg r rs : exists rs', push_if c msg (r :: rs) = r :: rs'.
Proof. unfold push_if. destruct c; eexists; reflexivity. Qed.

Lemma fold_push_cons {W} (cond : W -> bool) (msg : W -> string) ws :
  forall r rs,
    exists rs',
      fold_left (fun reasons w => push_if (cond w) (msg w) reasons) ws (r :: rs) = r :: rs'.
Proof.
  induction ws as [| w ws IH]; intros r rs; cbn [fold_left].
  - eexists. reflexivity.
  - destruct (push_if_cons (cond w) (msg w) r rs) as [rs1 ->]. apply IH.
Qed.

(** X30.  The rule-based scan reports nothing exactly for an address
    that starts with https://, holds no @, is at most 75 characters long,
    holds no dotted quad of numbers and none of the five keywords; it
    never reports more than nine reasons.  When the backend answers, an
    address with any rule reason is flagged whatever the backend says,
    and for an address without https:// the first reason shown is the
    missing HTTPS. *)
Theorem ruleBasedScan_reports :
  forall (url : string) (st : PhishState) (api : ScanResponse),
    (ruleBasedScan url = []
     <-> JS.startsWith url "https://" = true
         /\ JS.includes url "@" = false
         /\ JS.length url <= 75
         /\ has_ip url = false
         /\ Forall (fun w => JS.includes (JS.toLowerCase url) w = false) suspiciousWords)
    /\ (List.length (ruleBasedScan url) <= 9)%nat
    /\ (JS.blank url = false -> ruleBasedScan url <> [] ->
        exists res,
          ph_result (handleScan url st (Some (true, Some api))) = Some res
          /\ flagged res = true)
    /\ (JS.blank url = false -> JS.startsWith url "https://" = false ->
        exists res,
          ph_result (handleScan url st (Some (true, Some api))) = Some res
          /\ hd_error (sr_reasons res) = Some "URL does not use HTTPS").
Proof.
  intros url st api. split; [| split; [| split]].
  - unfold ruleBasedScan, suspiciousWords. cbn [fold_left].
    rewrite !push_if_nil, negb_false_iff, Z.ltb_ge.
    split.
    + intros (H5 & H4 & H3 & H2 & H1 & Hip & Hlen & Hat & Hs & _).
      repeat split; try assumption. repeat constructor; assumption.
    + intros (Hs & Hat & Hlen & Hip & Hw).
      inversion Hw as [| ? ? H1 Hw1]; subst. inversion Hw1 as [| ? ? H2 Hw2]; subst.
      inversion Hw2 as [| ? ? H3 Hw3]; subst. inversion Hw3 as [| ? ? H4 Hw4]; subst.
      inversion Hw4 as [| ? ? H5 Hw5]; subst.
      repeat split; assumption.
  - unfold ruleBasedScan, suspiciousWords. cbn [fold_left].
    repeat match goal with
      | |- context [push_if ?c ?m ?rs] =>
          lazymatch goal with
          | H : (List.length (push_if c m rs) <= _)%nat |- _ => fail
          | _ => pose proof (push_if_length c m rs)
          end
      end.
    cbn [List.length] in *. lia.
  - intros Hb Hne. unfold handleScan. rewrite Hb. eexists. split; [reflexivity |].
    cbn [flagged]. destruct (ruleBasedScan url); [congruence | reflexivity].
  - intros Hb Hs. unfold handleScan. rewrite Hb. eexists. split; [reflexivity |].
    cbn [sr_reasons]. unfold ruleBasedScan. rewrite Hs. cbn [negb].
    change (push_if true "URL does not use HTTPS" []) with ["URL does not use HTTPS"].
    destruct (push_if_cons (JS.includes url "@") "URL contains '@' symbol"
                "URL does not use HTTPS" []) as [r1 ->].
    destruct (push_if_cons (75 <? JS.length url) "URL length is unusually long"
                "URL does not use HTTPS" r1) as [r2 ->].
    destruct (push_if_cons (has_ip url) "IP address used instead of domain name"
                "URL does not use HTTPS" r2) as [r3 ->].
    destruct (fold_push_cons (fun word => JS.includes (JS.toLowerCase url) word)
                keyword_reason suspiciousWords "URL does not use HTTPS" r3) as [r4 ->].
    reflexivity.
Qed.
